(** * rewriter: configuration resolution, prompt assembly, model catalog
      and model selection

    A shallow embedding of [phase.ts], of the module it is imported into as
    [./binding], and of the command handlers registered by [activate].
    JavaScript strings are [string]; a value of type
    [string | undefined] is an [option string]; a plain object used as a
    record of string properties is the list of its own properties in
    creation order; module state, the settings store and everything the
    code does to the outside (console, notifications, network, editor) are
    threaded through a state-and-exception monad. *)

From Stdlib Require Import String Ascii List Bool Arith NArith Lia.
From Stdlib Require Import Permutation Sorted.
Import ListNotations.

Local Open Scope string_scope.
Local Open Scope list_scope.

(** ** JavaScript values *)

Module Js.

(** Truthiness of a [string | undefined]: [undefined] and [""] are falsy. *)
Definition truthy_str (s : string) : bool :=
  match s with
  | EmptyString => false
  | String _ _ => true
  end.

Definition truthy (v : option string) : bool :=
  match v with
  | Some s => truthy_str s
  | None => false
  end.

(** [a || b] where both sides may be [undefined]. *)
Definition or (a b : option string) : option string :=
  if truthy a then a else b.

(** [a || d] where the right operand is a string. *)
Definition or_str (a : option string) (d : string) : string :=
  match or a (Some d) with
  | Some s => s
  | None => d
  end.

(** [a === b] on [string | undefined] against a string literal. *)
Definition strict_eq (a : option string) (lit : string) : bool :=
  match a with
  | Some s => String.eqb s lit
  | None => false
  end.

(** *** Plain objects with string-valued properties

    [Record<string, string>]: the own properties in creation order. *)
Definition Obj := list (string * string).

Definition digit_of (c : ascii) : option N :=
  let n := N_of_ascii c in
  if ((48 <=? n) && (n <=? 57))%N then Some (n - 48)%N else None.

Fixpoint parse_digits (acc : N) (s : string) : option N :=
  match s with
  | EmptyString => Some acc
  | String c s' =>
      match digit_of c with
      | Some d => parse_digits (10 * acc + d)%N s'
      | None => None
      end
  end.

(** A property key is an array index when it is the canonical decimal
    numeral of an integer in [0, 2^32 - 2]. *)
Definition array_index (k : string) : option N :=
  match k with
  | EmptyString => None
  | String "0"%char EmptyString => Some 0%N
  | String "0"%char _ => None
  | _ =>
      match parse_digits 0 k with
      | Some n => if (n <? 4294967295)%N then Some n else None
      | None => None
      end
  end.

Definition is_index_key (p : string * string) : bool :=
  match array_index (fst p) with
  | Some _ => true
  | None => false
  end.

Definition index_of_key (p : string * string) : N :=
  match array_index (fst p) with
  | Some n => n
  | None => 0%N
  end.

Definition by_index (p q : string * string) : Prop :=
  (index_of_key p <= index_of_key q)%N.

Fixpoint insert_by_index (p : string * string) (l : list (string * string))
  : list (string * string) :=
  match l with
  | [] => [p]
  | q :: l' =>
      if (index_of_key p <? index_of_key q)%N
      then p :: l
      else q :: insert_by_index p l'
  end.

Definition sort_by_index (l : list (string * string)) : list (string * string) :=
  fold_right insert_by_index [] l.

(** [Object.entries(o)]: own keys in property order, that is array-index
    keys in ascending numeric order, then the other keys in creation
    order. *)
Definition entries (o : Obj) : list (string * string) :=
  sort_by_index (filter is_index_key o)
    ++ filter (fun p => negb (is_index_key p)) o.

(** *** [String.prototype.replace] with a string pattern *)

Fixpoint starts_with (pat s : string) : bool :=
  match pat, s with
  | EmptyString, _ => true
  | String a pat', String b s' => Ascii.eqb a b && starts_with pat' s'
  | String _ _, EmptyString => false
  end.

Fixpoint drop (n : nat) (s : string) : string :=
  match n, s with
  | O, _ => s
  | S n', String _ s' => drop n' s'
  | S _, EmptyString => EmptyString
  end.

(** [s.indexOf(pat)], [None] for -1. *)
Fixpoint index_of (pat s : string) : option nat :=
  if starts_with pat s then Some O
  else
    match s with
    | EmptyString => None
    | String _ s' => option_map S (index_of pat s')
    end.

(** [s.replace(pat, rep)] for a string [pat] and a replacement without
    [$] patterns: only the first match is replaced. *)
Fixpoint replace (pat rep s : string) : string :=
  if starts_with pat s then rep ++ drop (String.length pat) s
  else
    match s with
    | EmptyString => EmptyString
    | String c s' => String c (replace pat rep s')
    end.

(** [arr.includes(x)] on an array of strings. *)
Definition includes (arr : list string) (x : string) : bool :=
  existsb (String.eqb x) arr.

End Js.

(** ** [phase.ts] *)

Record RewriterConfig := mkRewriterConfig {
  apiKey : string;
  modelName : string;
  prompt : string;
  debug : bool;
  examples : Js.Obj
}.

Record RewriteContext := mkRewriteContext {
  text : string;
  selectionPrompt : option string
}.

Definition DEFAULT_MODEL_NAME : string := "gemini-2.0-flash".

Definition SAFETY_SETTINGS : list (string * string) :=
  [ ("HARM_CATEGORY_HARASSMENT", "BLOCK_NONE");
    ("HARM_CATEGORY_HATE_SPEECH", "BLOCK_NONE");
    ("HARM_CATEGORY_SEXUALLY_EXPLICIT", "BLOCK_NONE");
    ("HARM_CATEGORY_DANGEROUS_CONTENT", "BLOCK_NONE") ].

(** ** The world around the extension *)

(** What a [catch] clause can receive: an [Error] with its message, or any
    other thrown value. *)
Inductive Thrown :=
| ErrorObj (message : string)
| OtherThrown.

Inductive Result (A : Type) :=
| Ok (a : A)
| Throw (e : Thrown).
Arguments Ok {A} a.
Arguments Throw {A} e.

(** Everything the code does to its collaborators, in program order. *)
Inductive Event :=
| ConsoleError (label : string) (e : Thrown)
| ConsoleWarn (msg : string) (e : option Thrown)
| ShowErrorMessage (msg : string)
| ShowWarningMessage (msg : string) (items : list string)
| ShowInformationMessage (msg : string)
| ShowQuickPick (items : list string)
| ExecuteCommand (cmd : string)
| Fetch (url : string)
| GenerateContent (model : string) (safety : list (string * string))
    (parts : list string)
| ConfigUpdate (key value : string)
| ReplaceSelection (newText : string).

(** [vscode.workspace.getConfiguration("rewriter")]: the three settings the
    code reads, each possibly absent. *)
Record Settings := mkSettings {
  cfg_model : option string;
  cfg_prompt : option string;
  cfg_examples : option Js.Obj
}.

Record World := mkWorld {
  sessionModelName : option string;   (* [let sessionModelName] in binding.ts *)
  settings : Settings;
  secretApiKey : option string;       (* [context.secrets] entry "rewriter.apiKey" *)
  trace : list Event
}.

(** How the collaborators answer during one call. *)
Inductive InspectOutcome :=
| InspectThrows (e : Thrown)
| InspectUndefined
| InspectFound.

Inductive UpdateOutcome :=
| UpdateDone
| UpdateThrows (e : Thrown).

Record ModelInfo := mkModelInfo {
  name : string;
  displayName : string;
  supportedGenerationMethods : list string
}.

Record Response := mkResponse {
  status : N;
  statusText : string;
  json : Result (list ModelInfo)      (* [response.json()] read at [.models] *)
}.

(** [Response.ok]: the status is in the range 200-299. *)
Definition ok (r : Response) : bool :=
  ((200 <=? status r) && (status r <=? 299))%N.

Inductive FetchOutcome :=
| FetchRejected (e : Thrown)
| FetchResponse (r : Response).

Record Env := mkEnv {
  inspect_model : InspectOutcome;
  update_model : UpdateOutcome;
  fetch_models : FetchOutcome;
  generate : string -> list string -> Result string;
  warning_choice : option string;
  quick_pick : list string -> option string;
  input_box : option string
}.

(** ** State and exceptions *)

Definition M (A : Type) : Type := World -> Result A * World.

Definition ret {A} (a : A) : M A := fun w => (Ok a, w).

Definition bind {A B} (m : M A) (k : A -> M B) : M B :=
  fun w =>
    match m w with
    | (Ok a, w') => k a w'
    | (Throw e, w') => (Throw e, w')
    end.

Definition throw {A} (e : Thrown) : M A := fun w => (Throw e, w).

(** [try { body } catch (error) { handler error }] *)
Definition try_catch {A} (body : M A) (handler : Thrown -> M A) : M A :=
  fun w =>
    match body w with
    | (Ok a, w') => (Ok a, w')
    | (Throw e, w') => handler e w'
    end.

Definition get {A} (f : World -> A) : M A := fun w => (Ok (f w), w).

Definition emit (e : Event) : M unit :=
  fun w =>
    (Ok tt, mkWorld (sessionModelName w) (settings w) (secretApiKey w)
              (trace w ++ [e])).

Definition set_session (v : option string) : M unit :=
  fun w => (Ok tt, mkWorld v (settings w) (secretApiKey w) (trace w)).

Definition set_secret (v : option string) : M unit :=
  fun w => (Ok tt, mkWorld (sessionModelName w) (settings w) v (trace w)).

(** An awaited promise: its value, or its rejection thrown. *)
Definition await {A} (r : Result A) : M A := fun w => (r, w).

Declare Scope js_scope.
Delimit Scope js_scope with js.
Notation "x <- c ;; k" := (bind c (fun x => k))
  (at level 61, c at next level, right associativity) : js_scope.
Notation "c ;;; k" := (bind c (fun _ => k))
  (at level 61, right associativity) : js_scope.
Local Open Scope js_scope.

(** ** The [./binding] module *)

(** [getRewriterConfig]: reads the session state and the settings, changes
    nothing. *)
Definition getRewriterConfig (apiKey : string) (w : World) : RewriterConfig :=
  let config := settings w in
  let modelName :=
    Js.or_str (Js.or (sessionModelName w) (cfg_model config))
      DEFAULT_MODEL_NAME in
  {| apiKey := apiKey;
     modelName := modelName;
     prompt := Js.or_str (cfg_prompt config) "";
     debug := true;
     examples := match cfg_examples config with
                 | Some o => o
                 | None => []
                 end |}.

(** The [parts] array built by [generateRewrite]. *)
Definition push (parts : list string) (s : string) : list string :=
  parts ++ [s].

Definition promptText (config : RewriterConfig) (context : RewriteContext)
  : string :=
  Js.or_str (selectionPrompt context) (prompt config).

Definition build_parts (config : RewriterConfig) (context : RewriteContext)
  : list string :=
  let parts := [] in
  let parts :=
    if Js.truthy_str (promptText config context)
    then push parts ("instruction: " ++ promptText config context)
    else parts in
  let parts :=
    fold_left
      (fun parts '(input, output) =>
         push (push parts ("input: " ++ input)) ("output: " ++ output))
      (Js.entries (examples config)) parts in
  let parts := push parts ("input: " ++ text context) in
  push parts "output: ".

Definition generateRewrite (env : Env) (config : RewriterConfig)
  (context : RewriteContext) : M string :=
  let parts := build_parts config context in
  emit (GenerateContent (modelName config) SAFETY_SETTINGS parts) ;;;
  await (generate env (modelName config) parts).

Definition models_url (apiKey : string) : string :=
  "https://generativelanguage.googleapis.com/v1beta/models?key=" ++ apiKey.

Definition rewrite_capable (m : ModelInfo) : bool :=
  Js.includes (supportedGenerationMethods m) "generateContent".

Definition display_name (m : ModelInfo) : string :=
  Js.replace "models/" "" (name m).

Definition listAvailableModels (env : Env) (apiKey : string)
  : M (list string) :=
  try_catch
    (emit (Fetch (models_url apiKey)) ;;;
     match fetch_models env with
     | FetchRejected e => throw e
     | FetchResponse response =>
         if negb (ok response)
         then throw (ErrorObj ("Failed to fetch models: " ++ statusText response))
         else
           models <- await (json response) ;;
           ret (map display_name (filter rewrite_capable models))
     end)
    (fun error =>
       emit (ConsoleError "Failed to list models:" error) ;;;
       throw error).

Definition persist_model (modelName : string) : M unit :=
  fun w =>
    (Ok tt,
     mkWorld (sessionModelName w)
       (mkSettings (Some modelName) (cfg_prompt (settings w))
          (cfg_examples (settings w)))
       (secretApiKey w) (trace w)).

Definition updateModelConfig (env : Env) (modelName : string) : M unit :=
  set_session (Some modelName) ;;;
  try_catch
    (match inspect_model env with
     | InspectThrows e => throw e
     | InspectUndefined =>
         emit (ConsoleWarn
                 "Configuration 'rewriter.model' not found in inspection. Using session storage only."
                 None)
     | InspectFound =>
         emit (ConfigUpdate "rewriter.model" modelName) ;;;
         match update_model env with
         | UpdateThrows e => throw e
         | UpdateDone => persist_model modelName
         end
     end)
    (fun error =>
       emit (ConsoleWarn
               "Failed to update configuration persistence (using session state):"
               (Some error))).

Definition replaceSelection (newText : string) : M unit :=
  emit (ReplaceSelection newText).

(** ** The command handlers

    The handlers return nothing to VS Code; the model returns which exit of
    the handler was taken. *)
Inductive Outcome :=
| ApiKeySaved
| InputDismissed
| NoActiveEditor
| NoTextSelected
| MissingCredential
| DeprecatedModelSelected
| GenerationFailed (e : Thrown)
| Succeeded (result : string)
| SelectionFailed (e : Thrown)
| SelectionDismissed
| ModelSelected (model : string).

(** The active editor, as far as the handler looks at it: the text of its
    selection. *)
Record Editor := mkEditor {
  selectedText : string
}.

Definition setApiKey (env : Env) : M Outcome :=
  if negb (Js.truthy (input_box env))
  then ret InputDismissed
  else
    set_secret (input_box env) ;;;
    emit (ShowInformationMessage "API Key saved successfully.") ;;;
    ret ApiKeySaved.

Definition error_message_or (e : Thrown) (fallback : string) : string :=
  match e with
  | ErrorObj message => message
  | OtherThrown => fallback
  end.

Definition selectModel (env : Env) : M Outcome :=
  try_catch
    (apiKey <- get secretApiKey ;;
     match apiKey with
     | Some (String _ _ as apiKey) =>
         models <- listAvailableModels env apiKey ;;
         (if Nat.eqb (List.length models) 0
          then throw (ErrorObj "No available models found for generateContent.")
          else ret tt) ;;;
         emit (ShowQuickPick models) ;;;
         let selectedModel := quick_pick env models in
         if Js.truthy selectedModel
         then
           updateModelConfig env (Js.or_str selectedModel "") ;;;
           emit (ShowInformationMessage
                   ("Rewriter model set to: " ++ Js.or_str selectedModel "")) ;;;
           ret (ModelSelected (Js.or_str selectedModel ""))
         else ret SelectionDismissed
     | _ =>
         emit (ShowErrorMessage
                 "Please set the API key first by running 'Rewriter: Set API Key'") ;;;
         ret MissingCredential
     end)
    (fun error =>
       emit (ConsoleError "Select Model Error:" error) ;;;
       emit (ShowErrorMessage
               ("Failed to list models: " ++ error_message_or error "Unknown error")) ;;;
       ret (SelectionFailed error)).

Definition DEPRECATED_MODEL_NAME : string := "gemini-pro".

(** The body run under the progress notification of [rewriter.rewrite],
    with the text captured from the editor. *)
Definition rewriteFlow (env : Env) (text : string) (argsPrompt : option string)
  : M Outcome :=
  try_catch
    (apiKey <- get secretApiKey ;;
     match apiKey with
     | Some (String _ _ as apiKey) =>
         config <- get (getRewriterConfig apiKey) ;;
         if String.eqb (modelName config) DEPRECATED_MODEL_NAME
         then
           emit (ShowWarningMessage
                   "The default model 'gemini-pro' is deprecated. Please select a valid Gemini model to proceed."
                   ["Select Model"]) ;;;
           (if Js.strict_eq (warning_choice env) "Select Model"
            then emit (ExecuteCommand "rewriter.selectModel")
            else ret tt) ;;;
           ret DeprecatedModelSelected
         else
           let rewriteContext :=
             {| text := text; selectionPrompt := argsPrompt |} in
           result <- generateRewrite env config rewriteContext ;;
           replaceSelection result ;;;
           ret (Succeeded result)
     | _ =>
         emit (ShowErrorMessage
                 "Please set the API key first by running the command 'Rewriter: Set API Key'") ;;;
         ret MissingCredential
     end)
    (fun error =>
       emit (ConsoleError "Rewrite Error:" error) ;;;
       emit (ShowErrorMessage
               match error with
               | ErrorObj message => "Rewrite failed: " ++ message
               | OtherThrown => "Rewrite failed with an unknown error."
               end) ;;;
       ret (GenerationFailed error)).

Definition rewrite (env : Env) (editor : option Editor)
  (argsPrompt : option string) : M Outcome :=
  match editor with
  | None =>
      emit (ShowErrorMessage "No active editor found") ;;;
      ret NoActiveEditor
  | Some editor =>
      let text := selectedText editor in
      if negb (Js.truthy_str text)
      then
        emit (ShowErrorMessage "No text selected") ;;;
        ret NoTextSelected
      else rewriteFlow env text argsPrompt
  end.

(** ** Runs of the extension

    One step is one call into the module or one command; the process starts
    with no session model and an empty trace. *)
Inductive Op :=
| CallGetRewriterConfig (apiKey : string)
| CallGenerateRewrite (env : Env) (config : RewriterConfig)
    (context : RewriteContext)
| CallListAvailableModels (env : Env) (apiKey : string)
| CallUpdateModelConfig (env : Env) (modelName : string)
| CmdSetApiKey (env : Env)
| CmdSelectModel (env : Env)
| CmdRewrite (env : Env) (editor : option Editor) (argsPrompt : option string).

Definition step (op : Op) (w : World) : World :=
  match op with
  | CallGetRewriterConfig apiKey => snd (get (getRewriterConfig apiKey) w)
  | CallGenerateRewrite env config context =>
      snd (generateRewrite env config context w)
  | CallListAvailableModels env apiKey => snd (listAvailableModels env apiKey w)
  | CallUpdateModelConfig env modelName => snd (updateModelConfig env modelName w)
  | CmdSetApiKey env => snd (setApiKey env w)
  | CmdSelectModel env => snd (selectModel env w)
  | CmdRewrite env editor argsPrompt => snd (rewrite env editor argsPrompt w)
  end.

Definition run (ops : list Op) (w : World) : World :=
  fold_left (fun w op => step op w) ops w.

Definition process_start (s : Settings) (secret : option string) : World :=
  {| sessionModelName := None; settings := s; secretApiKey := secret;
     trace := [] |}.

(** Steps that reach the assignment to [sessionModelName]: a direct call of
    [updateModelConfig], or the model selection command. *)
Definition selects_model (op : Op) : bool :=
  match op with
  | CallUpdateModelConfig _ _ => true
  | CmdSelectModel _ => true
  | _ => false
  end.

Definition is_network (e : Event) : bool :=
  match e with
  | GenerateContent _ _ _ => true
  | Fetch _ => true
  | _ => false
  end.

(** ** The specification's reading, for comparison with the code *)

Module Spec.

(** Model name precedence in the specification's words: the session
    override if it is set, else the persisted model if non-empty, else the
    default. *)
Definition modelName (w : World) : string :=
  match sessionModelName w with
  | Some s => s
  | None =>
      match cfg_model (settings w) with
      | Some (String _ _ as m) => m
      | _ => DEFAULT_MODEL_NAME
      end
  end.

Definition instruction_part (instruction : string) : list string :=
  match instruction with
  | EmptyString => []
  | String _ _ => [("instruction: " ++ instruction)%string]
  end.

Definition example_parts (p : string * string) : list string :=
  [("input: " ++ fst p)%string; ("output: " ++ snd p)%string].

(** The request payload with the example pairs laid out in the order
    [pairs]. *)
Definition payload (instruction : string) (pairs : list (string * string))
  (text : string) : list string :=
  instruction_part instruction
    ++ flat_map example_parts pairs
    ++ [("input: " ++ text)%string; "output: "].

(** Removal of a leading [prefix], nothing else. *)
Definition strip_prefix (prefix s : string) : string :=
  if Js.starts_with prefix s then Js.drop (String.length prefix) s else s.

Definition listRewriteCapableModels (models : list ModelInfo) : list string :=
  map (fun m => strip_prefix "models/" (name m))
    (filter rewrite_capable models).

End Spec.

(** ** Sample states and inputs *)

(** The state reached by selecting the empty string while the settings hold
    a model: the session variable is set, and the persisted model is
    returned. *)
Definition empty_override_world : World :=
  {| sessionModelName := Some "";
     settings := {| cfg_model := Some "gemini-1.5-pro";
                    cfg_prompt := None;
                    cfg_examples := None |};
     secretApiKey := Some "k";
     trace := [] |}.

Definition persisted_only_world : World :=
  {| sessionModelName := None;
     settings := {| cfg_model := Some "gemini-1.5-pro";
                    cfg_prompt := Some "Fix the grammar";
                    cfg_examples := None |};
     secretApiKey := Some "k";
     trace := [] |}.


Definition sample_config : RewriterConfig :=
  {| apiKey := "k"; modelName := "gemini-2.0-flash";
     prompt := "Fix the grammar"; debug := true;
     examples := [("a", "b"); ("c", "d")] |}.

Definition override_context : RewriteContext :=
  {| text := "hello"; selectionPrompt := Some "Translate to French" |}.

(** Examples whose second key, ["1"], is an array index. *)
Definition numeric_key_config : RewriterConfig :=
  {| apiKey := "k"; modelName := "gemini-2.0-flash";
     prompt := ""; debug := true;
     examples := [("b", "B"); ("1", "A")] |}.

Definition plain_context : RewriteContext :=
  {| text := "hello"; selectionPrompt := None |}.

(** Collaborators for one call: the settings key is registered but the
    write is refused; the catalog lists one usable and one unusable model;
    generation answers ["HELLO"]. *)
Definition sample_catalog : list ModelInfo :=
  [ {| name := "models/foo"; displayName := "Foo";
       supportedGenerationMethods := ["generateContent"] |};
    {| name := "models/bar"; displayName := "Bar";
       supportedGenerationMethods := ["embedContent"] |} ].

Definition read_only_settings_env : Env :=
  {| inspect_model := InspectFound;
     update_model := UpdateThrows (ErrorObj "Unable to write into user settings");
     fetch_models :=
       FetchResponse {| status := 200; statusText := "OK";
                        json := Ok sample_catalog |};
     generate := fun _ _ => Ok "HELLO";
     warning_choice := Some "Select Model";
     quick_pick := fun _ => None;
     input_box := None |}.

Definition with_fetch (f : FetchOutcome) (env : Env) : Env :=
  {| inspect_model := inspect_model env;
     update_model := update_model env;
     fetch_models := f;
     generate := generate env;
     warning_choice := warning_choice env;
     quick_pick := quick_pick env;
     input_box := input_box env |}.

Definition catalog_env (models : list ModelInfo) : Env :=
  with_fetch
    (FetchResponse {| status := 200; statusText := "OK"; json := Ok models |})
    read_only_settings_env.

(** A catalog entry whose name holds ["models/"] but not as a prefix. *)
Definition inner_match_catalog : list ModelInfo :=
  [ {| name := "xmodels/foo"; displayName := "Foo";
       supportedGenerationMethods := ["generateContent"] |} ].

Definition nested_model : ModelInfo :=
  {| name := "a/models/b/models/c"; displayName := "C";
     supportedGenerationMethods := ["generateContent"] |}.

Definition forbidden_env : Env :=
  with_fetch
    (FetchResponse {| status := 403; statusText := "Forbidden";
                      json := Ok sample_catalog |})
    read_only_settings_env.

(** Credential present, no session model, the deprecated model persisted. *)
Definition deprecated_world : World :=
  {| sessionModelName := None;
     settings := {| cfg_model := Some "gemini-pro";
                    cfg_prompt := None;
                    cfg_examples := None |};
     secretApiKey := Some "k";
     trace := [] |}.

Definition deprecated_warning : Event :=
  ShowWarningMessage
    "The default model 'gemini-pro' is deprecated. Please select a valid Gemini model to proceed."
    ["Select Model"].

(** ** Proof automation *)

Ltac run_js :=
  unfold bind, ret, throw, try_catch, await, get, emit, set_session,
    set_secret, persist_model, replaceSelection; cbn.


(** ** What a call leaves behind *)

(** The world after a call that only talked to the outside: the same module
    state, settings and secret, and [evs] added to the trace. *)
Definition add_events (w : World) (evs : list Event) : World :=
  {| sessionModelName := sessionModelName w;
     settings := settings w;
     secretApiKey := secretApiKey w;
     trace := trace w ++ evs |}.

Definition with_session (v : option string) (w : World) : World :=
  {| sessionModelName := v;
     settings := settings w;
     secretApiKey := secretApiKey w;
     trace := trace w |}.

Definition with_model (v : option string) (s : Settings) : Settings :=
  {| cfg_model := v; cfg_prompt := cfg_prompt s; cfg_examples := cfg_examples s |}.

Definition is_replacement (e : Event) : bool :=
  match e with
  | ReplaceSelection _ => true
  | _ => false
  end.

Definition is_settings_write (e : Event) : bool :=
  match e with
  | ConfigUpdate _ _ => true
  | _ => false
  end.

Definition stores_api_key (op : Op) : bool :=
  match op with
  | CmdSetApiKey _ => true
  | _ => false
  end.

(** The message shown when the rewrite flow catches [error]. *)
Definition rewrite_failure_message (error : Thrown) : string :=
  match error with
  | ErrorObj message => "Rewrite failed: " ++ message
  | OtherThrown => "Rewrite failed with an unknown error."
  end.

(** The context and the request the rewrite command builds from the
    selected text and the command argument. *)
Definition context_of (text : string) (argsPrompt : option string)
  : RewriteContext :=
  {| text := text; selectionPrompt := argsPrompt |}.

Definition request_of (config : RewriterConfig) (context : RewriteContext)
  : Event :=
  GenerateContent (modelName config) SAFETY_SETTINGS
    (build_parts config context).

(** *** More sample collaborators *)

Definition with_generate (g : string -> list string -> Result string)
  (env : Env) : Env :=
  {| inspect_model := inspect_model env;
     update_model := update_model env;
     fetch_models := fetch_models env;
     generate := g;
     warning_choice := warning_choice env;
     quick_pick := quick_pick env;
     input_box := input_box env |}.

Definition with_quick_pick (q : list string -> option string) (env : Env)
  : Env :=
  {| inspect_model := inspect_model env;
     update_model := update_model env;
     fetch_models := fetch_models env;
     generate := generate env;
     warning_choice := warning_choice env;
     quick_pick := q;
     input_box := input_box env |}.

Definition with_input_box (v : option string) (env : Env) : Env :=
  {| inspect_model := inspect_model env;
     update_model := update_model env;
     fetch_models := fetch_models env;
     generate := generate env;
     warning_choice := warning_choice env;
     quick_pick := quick_pick env;
     input_box := v |}.

Definition with_persistence (i : InspectOutcome) (u : UpdateOutcome)
  (env : Env) : Env :=
  {| inspect_model := i;
     update_model := u;
     fetch_models := fetch_models env;
     generate := generate env;
     warning_choice := warning_choice env;
     quick_pick := quick_pick env;
     input_box := input_box env |}.

Definition quota_env : Env :=
  with_generate (fun _ _ => Throw (ErrorObj "quota exceeded"))
    read_only_settings_env.

Definition offline_env : Env :=
  with_fetch (FetchRejected (ErrorObj "fetch failed")) read_only_settings_env.

Definition picking_env : Env :=
  with_quick_pick (fun models => hd_error models) read_only_settings_env.


Definition unregistered_env : Env :=
  with_persistence InspectUndefined UpdateDone read_only_settings_env.

Definition embedding_only_catalog : list ModelInfo :=
  [ {| name := "models/bar"; displayName := "Bar";
       supportedGenerationMethods := ["embedContent"] |} ].

Definition hello_editor : Editor := {| selectedText := "hello" |}.

Definition no_secret_world : World :=
  {| sessionModelName := None;
     settings := {| cfg_model := None; cfg_prompt := None;
                    cfg_examples := None |};
     secretApiKey := None;
     trace := [] |}.

Definition NO_MODELS_MESSAGE : string :=
  "No available models found for generateContent.".

Definition MISSING_KEY_MESSAGE : string :=
  "Please set the API key first by running 'Rewriter: Set API Key'".

Definition KEY_NOT_FOUND_WARNING : Event :=
  ConsoleWarn
    "Configuration 'rewriter.model' not found in inspection. Using session storage only."
    None.

Definition persistence_warning (e : Thrown) : Event :=
  ConsoleWarn
    "Failed to update configuration persistence (using session state):"
    (Some e).

(** The world after [updateModelConfig]: the session model set, the settings
    [s], and [evs] added to the trace. *)
Definition selected (x : string) (s : Settings) (evs : list Event) (w : World)
  : World :=
  {| sessionModelName := Some x;
     settings := s;
     secretApiKey := secretApiKey w;
     trace := trace w ++ evs |}.

(** What [updateModelConfig] does towards the settings store and the
    console, by the answers of the store. *)
Definition persistence_events (env : Env) (x : string) : list Event :=
  match inspect_model env with
  | InspectThrows e => [persistence_warning e]
  | InspectUndefined => [KEY_NOT_FOUND_WARNING]
  | InspectFound =>
      match update_model env with
      | UpdateDone => [ConfigUpdate "rewriter.model" x]
      | UpdateThrows e => [ConfigUpdate "rewriter.model" x; persistence_warning e]
      end
  end.

Definition nested_prefixed_model : ModelInfo :=
  {| name := "models/tuned/models/foo"; displayName := "Foo";
     supportedGenerationMethods := ["generateContent"] |}.

(** Steps through the monad without unfolding the module functions. *)
Ltac step_js :=
  unfold bind, ret, throw, try_catch, await, get, emit, set_session,
    set_secret, persist_model, replaceSelection, add_events;
  cbn -[getRewriterConfig build_parts String.eqb Js.replace].
(** * Properties *)

(** ** The [||] operator *)

Lemma or_str_truthy (a : option string) (d s : string) :
  a = Some s -> s <> "" -> Js.or_str a d = s.
Proof.
  intros -> Hs. destruct s as [|c s]; [congruence | reflexivity].
Qed.

Lemma or_str_falsy (a : option string) (d : string) :
  a = None \/ a = Some "" -> Js.or_str a d = d.
Proof.
  intros [-> | ->]; reflexivity.
Qed.

Lemma or_falsy (a b : option string) :
  a = None \/ a = Some "" -> Js.or a b = b.
Proof.
  intros [-> | ->]; reflexivity.
Qed.

Lemma truthy_str_nonempty (s : string) :
  Js.truthy_str s = true <-> s <> "".
Proof.
  destruct s; simpl; split; congruence.
Qed.

(** ** ConfigResolver *)

(** C1, as stated, fails: with the session variable set to the empty string
    and a persisted model present, the resolved model name is the persisted
    one, not the session value. *)
Lemma C1_set_but_empty_override_loses :
  sessionModelName empty_override_world = Some ""
  /\ modelName (getRewriterConfig "k" empty_override_world) = "gemini-1.5-pro"
  /\ modelName (getRewriterConfig "k" empty_override_world)
       <> Spec.modelName empty_override_world.
Proof.
  repeat split. discriminate.
Qed.

(** C1 (amended): the resolved model name is the session override when it is
    set to a non-empty string, otherwise the persisted model when that is
    non-empty, otherwise the default; whenever the session variable is not
    the empty string this is the precedence of the specification. *)
Theorem C1_modelName_precedence (k : string) (w : World) :
  (forall s, sessionModelName w = Some s -> s <> "" ->
     modelName (getRewriterConfig k w) = s)
  /\ (sessionModelName w = None \/ sessionModelName w = Some "" ->
      forall m, cfg_model (settings w) = Some m -> m <> "" ->
        modelName (getRewriterConfig k w) = m)
  /\ (sessionModelName w = None \/ sessionModelName w = Some "" ->
      cfg_model (settings w) = None \/ cfg_model (settings w) = Some "" ->
      modelName (getRewriterConfig k w) = DEFAULT_MODEL_NAME)
  /\ (sessionModelName w <> Some "" ->
      modelName (getRewriterConfig k w) = Spec.modelName w).
Proof.
  unfold getRewriterConfig; cbn [modelName].
  repeat split.
  - intros s Hs Hne. rewrite Hs.
    destruct s as [|c s]; [congruence | reflexivity].
  - intros Hsess m Hm Hne. rewrite (or_falsy _ _ Hsess).
    now apply or_str_truthy.
  - intros Hsess Hcfg. rewrite (or_falsy _ _ Hsess).
    now apply or_str_falsy.
  - intros Hne. unfold Spec.modelName.
    destruct (sessionModelName w) as [[|c s]|]; [congruence | reflexivity |].
    destruct (cfg_model (settings w)) as [[|c m]|]; reflexivity.
Qed.

Lemma C1_modelName_precedence_witness :
  modelName (getRewriterConfig "k" persisted_only_world) = "gemini-1.5-pro".
Proof.
  apply (proj1 (proj2 (C1_modelName_precedence "k" persisted_only_world))
           (or_introl eq_refl) "gemini-1.5-pro" eq_refl).
  discriminate.
Defined.

(** C10: the resolved configuration always has [debug] switched on. *)
Theorem C10_debug_always_true (k : string) (w : World) :
  debug (getRewriterConfig k w) = true.
Proof. reflexivity. Qed.

(** ** Property order of plain objects *)

Lemma insert_by_index_perm (p : string * string) (l : list (string * string)) :
  Permutation (Js.insert_by_index p l) (p :: l).
Proof.
  induction l as [|q l IH]; simpl.
  - apply Permutation_refl.
  - destruct (Js.index_of_key p <? Js.index_of_key q)%N.
    + apply Permutation_refl.
    + apply perm_trans with (q :: p :: l).
      * now apply perm_skip.
      * apply perm_swap.
Qed.

Lemma sort_by_index_perm (l : list (string * string)) :
  Permutation (Js.sort_by_index l) l.
Proof.
  induction l as [|p l IH]; simpl.
  - apply perm_nil.
  - eapply perm_trans; [apply insert_by_index_perm | now apply perm_skip].
Qed.

Lemma insert_by_index_hd (p : string * string) (l : list (string * string))
  (q : string * string) :
  Js.by_index q p -> HdRel Js.by_index q l ->
  HdRel Js.by_index q (Js.insert_by_index p l).
Proof.
  intros Hqp Hl. destruct l as [|r l]; simpl.
  - now constructor.
  - destruct (Js.index_of_key p <? Js.index_of_key r)%N; constructor; trivial.
    now inversion Hl.
Qed.

Lemma insert_by_index_sorted (p : string * string) (l : list (string * string)) :
  Sorted Js.by_index l -> Sorted Js.by_index (Js.insert_by_index p l).
Proof.
  induction 1 as [|q l Hl IH Hhd]; simpl.
  - repeat constructor.
  - destruct (Js.index_of_key p <? Js.index_of_key q)%N eqn:E.
    + apply N.ltb_lt in E. constructor.
      * now constructor.
      * constructor. unfold Js.by_index. lia.
    + apply N.ltb_ge in E. constructor; [exact IH |].
      now apply insert_by_index_hd.
Qed.

Lemma sort_by_index_sorted (l : list (string * string)) :
  Sorted Js.by_index (Js.sort_by_index l).
Proof.
  induction l as [|p l IH]; simpl.
  - constructor.
  - now apply insert_by_index_sorted.
Qed.

Lemma filter_split_perm {A : Type} (f : A -> bool) (l : list A) :
  Permutation (filter f l ++ filter (fun a => negb (f a)) l) l.
Proof.
  induction l as [|a l IH]; simpl.
  - apply perm_nil.
  - destruct (f a); simpl.
    + now apply perm_skip.
    + apply Permutation_sym, Permutation_cons_app, Permutation_sym, IH.
Qed.

Lemma entries_perm (o : Js.Obj) : Permutation (Js.entries o) o.
Proof.
  unfold Js.entries.
  eapply perm_trans; [| apply (filter_split_perm Js.is_index_key)].
  apply Permutation_app_tail, sort_by_index_perm.
Qed.

Lemma filter_none {A : Type} (f : A -> bool) (l : list A) :
  (forall a, In a l -> f a = false) ->
  filter f l = [] /\ filter (fun a => negb (f a)) l = l.
Proof.
  induction l as [|a l IH]; intros H; simpl.
  - now split.
  - rewrite (H a (or_introl eq_refl)); simpl.
    destruct IH as [IH1 IH2]; [intros b Hb; apply H; now right |].
    split; [exact IH1 | now rewrite IH2].
Qed.

Lemma entries_creation_order (o : Js.Obj) :
  (forall p, In p o -> Js.array_index (fst p) = None) -> Js.entries o = o.
Proof.
  intros H. unfold Js.entries.
  destruct (filter_none Js.is_index_key o) as [-> ->]; [| reflexivity].
  intros p Hp. unfold Js.is_index_key. now rewrite (H p Hp).
Qed.

(** ** PromptAssembler: the order of the parts *)

Lemma fold_left_push_examples (l : list (string * string)) (acc : list string) :
  fold_left
    (fun parts '(input, output) =>
       push (push parts ("input: " ++ input)) ("output: " ++ output))
    l acc
  = acc ++ flat_map Spec.example_parts l.
Proof.
  revert acc. induction l as [|[i o] l IH]; intros acc; simpl.
  - now rewrite app_nil_r.
  - rewrite IH. unfold push. now rewrite <- !app_assoc.
Qed.

Lemma build_parts_payload (config : RewriterConfig) (context : RewriteContext) :
  build_parts config context
  = Spec.payload (promptText config context) (Js.entries (examples config))
      (text context).
Proof.
  unfold build_parts, Spec.payload. rewrite fold_left_push_examples.
  unfold push, Spec.instruction_part.
  destruct (promptText config context); simpl; now rewrite <- !app_assoc.
Qed.

(** C5: the per-invocation prompt, when present and non-empty, is the active
    instruction whatever the configured prompt is; otherwise the configured
    prompt is; a non-empty active instruction is what the instruction part
    carries. *)
Theorem C5_active_instruction (config : RewriterConfig)
  (context : RewriteContext) :
  (forall s, selectionPrompt context = Some s -> s <> ""%string ->
     promptText config context = s)
  /\ (selectionPrompt context = None \/ selectionPrompt context = Some ""%string ->
      promptText config context = prompt config)
  /\ (promptText config context <> ""%string ->
      hd_error (build_parts config context)
      = Some ("instruction: " ++ promptText config context)%string).
Proof.
  split; [| split].
  - intros s Hs Hne. now apply or_str_truthy.
  - apply or_str_falsy.
  - intros Hne. rewrite build_parts_payload. unfold Spec.payload.
    destruct (promptText config context); [congruence | reflexivity].
Qed.

Lemma C5_active_instruction_witness :
  promptText sample_config override_context = "Translate to French".
Proof.
  apply (proj1 (C5_active_instruction sample_config override_context)
           "Translate to French" eq_refl).
  discriminate.
Defined.

(** C3, as stated, fails: with examples created in the order ["b"], ["1"],
    the pair keyed ["1"] is sent first, so the parts are not in insertion
    order. *)
Lemma C3_index_keys_break_insertion_order :
  build_parts numeric_key_config plain_context
  = ["input: 1"; "output: A"; "input: b"; "output: B"; "input: hello";
     "output: "]%string
  /\ build_parts numeric_key_config plain_context
     <> Spec.payload (promptText numeric_key_config plain_context)
          (examples numeric_key_config) (text plain_context).
Proof.
  split; [reflexivity | discriminate].
Qed.

(** C3 (amended): the parts are an instruction part (present exactly when the
    active instruction is non-empty), then an [input:] part and its
    [output:] part for each example pair in the property order of the
    examples object, then the [input:] part of the selected text, then the
    empty [output:] part, which is last.  The property order holds every
    pair once, array-index keys first in ascending numeric order; when no
    key is an array index it is the insertion order. *)
Theorem C3_parts_order (config : RewriterConfig) (context : RewriteContext) :
  build_parts config context
  = Spec.payload (promptText config context) (Js.entries (examples config))
      (text context)
  /\ (Spec.instruction_part (promptText config context) = []
      <-> promptText config context = ""%string)
  /\ last (build_parts config context) ""%string = "output: "%string
  /\ Permutation (Js.entries (examples config)) (examples config)
  /\ (exists indexed,
        Js.entries (examples config)
        = indexed
            ++ filter (fun p => negb (Js.is_index_key p)) (examples config)
        /\ Permutation indexed (filter Js.is_index_key (examples config))
        /\ Sorted Js.by_index indexed)
  /\ ((forall p, In p (examples config) -> Js.array_index (fst p) = None) ->
      build_parts config context
      = Spec.payload (promptText config context) (examples config)
          (text context)).
Proof.
  repeat split.
  - apply build_parts_payload.
  - destruct (promptText config context); simpl; congruence.
  - now intros ->.
  - unfold build_parts, push. now rewrite last_last.
  - apply entries_perm.
  - exists (Js.sort_by_index (filter Js.is_index_key (examples config))).
    repeat split;
      [apply sort_by_index_perm | apply sort_by_index_sorted].
  - intros H. rewrite build_parts_payload. now rewrite entries_creation_order.
Qed.

Lemma C3_parts_order_witness :
  build_parts sample_config override_context
  = ["instruction: Translate to French"; "input: a"; "output: b";
     "input: c"; "output: d"; "input: hello"; "output: "]%string.
Proof.
  apply (proj2 (proj2 (proj2 (proj2 (proj2
           (C3_parts_order sample_config override_context)))))).
  intros p [<- | [<- | []]]; reflexivity.
Defined.

(** ** ModelSelector *)

Lemma updateModelConfig_returns (env : Env) (x : string) (w : World) :
  fst (updateModelConfig env x w) = Ok tt.
Proof.
  unfold updateModelConfig. run_js.
  destruct (inspect_model env); cbn; try reflexivity.
  destruct (update_model env); reflexivity.
Qed.

Lemma updateModelConfig_session (env : Env) (x : string) (w : World) :
  sessionModelName (snd (updateModelConfig env x w)) = Some x.
Proof.
  unfold updateModelConfig. run_js.
  destruct (inspect_model env); cbn; try reflexivity.
  destruct (update_model env); reflexivity.
Qed.

Lemma generateRewrite_session env config context w :
  sessionModelName (snd (generateRewrite env config context w))
  = sessionModelName w.
Proof.
  unfold generateRewrite. run_js. reflexivity.
Qed.

Lemma listAvailableModels_session env k w :
  sessionModelName (snd (listAvailableModels env k w)) = sessionModelName w.
Proof.
  unfold listAvailableModels. run_js.
  destruct (fetch_models env) as [e | r]; cbn; [reflexivity |].
  destruct (ok r); cbn; [| reflexivity].
  destruct (json r); reflexivity.
Qed.

Lemma setApiKey_session env w :
  sessionModelName (snd (setApiKey env w)) = sessionModelName w.
Proof.
  unfold setApiKey. destruct (Js.truthy (input_box env)); reflexivity.
Qed.

Lemma rewriteFlow_session env text argsPrompt w :
  sessionModelName (snd (rewriteFlow env text argsPrompt w))
  = sessionModelName w.
Proof.
  unfold rewriteFlow, generateRewrite. run_js.
  destruct (secretApiKey w) as [[|c k]|]; cbn; try reflexivity.
  destruct (String.eqb _ DEPRECATED_MODEL_NAME); cbn.
  - destruct (Js.strict_eq _ _); reflexivity.
  - destruct (generate env _ _); reflexivity.
Qed.

Lemma rewrite_session env editor argsPrompt w :
  sessionModelName (snd (rewrite env editor argsPrompt w))
  = sessionModelName w.
Proof.
  unfold rewrite. destruct editor as [ed|]; [| reflexivity].
  destruct (Js.truthy_str (selectedText ed)); cbn; [| reflexivity].
  apply rewriteFlow_session.
Qed.

Lemma step_keeps_session (op : Op) (w : World) :
  selects_model op = false ->
  sessionModelName (step op w) = sessionModelName w.
Proof.
  destruct op; cbn [selects_model step]; intros H; try discriminate.
  - reflexivity.
  - apply generateRewrite_session.
  - apply listAvailableModels_session.
  - apply setApiKey_session.
  - apply rewrite_session.
Qed.

Lemma run_keeps_session (ops : list Op) (w : World) :
  Forall (fun op => selects_model op = false) ops ->
  sessionModelName (run ops w) = sessionModelName w.
Proof.
  unfold run. revert w.
  induction ops as [|op ops IH]; intros w H; cbn; [reflexivity |].
  inversion H as [|? ? Hop Hops]; subst.
  rewrite IH by assumption. now apply step_keeps_session.
Qed.

(** C2: [updateModelConfig x] returns normally with the session model equal
    to [x], whatever the settings store does; a refused write is only
    logged; a successful write leaves the session model in place; the
    session model stays [x] through every later step that is not a model
    selection, the next [updateModelConfig] overwrites it, and a fresh
    process starts without one. *)
Theorem C2_selection_sets_session (env : Env) (x : string) (w : World) :
  fst (updateModelConfig env x w) = Ok tt
  /\ sessionModelName (snd (updateModelConfig env x w)) = Some x
  /\ (forall e,
        inspect_model env = InspectFound -> update_model env = UpdateThrows e ->
        trace (snd (updateModelConfig env x w))
        = trace w
            ++ [ConfigUpdate "rewriter.model" x;
                ConsoleWarn
                  "Failed to update configuration persistence (using session state):"
                  (Some e)])
  /\ (inspect_model env = InspectFound -> update_model env = UpdateDone ->
      cfg_model (settings (snd (updateModelConfig env x w))) = Some x
      /\ sessionModelName (snd (updateModelConfig env x w)) = Some x)
  /\ (forall ops,
        Forall (fun op => selects_model op = false) ops ->
        sessionModelName (run ops (snd (updateModelConfig env x w))) = Some x)
  /\ (forall ops env' y,
        sessionModelName
          (snd (updateModelConfig env' y
                  (run ops (snd (updateModelConfig env x w)))))
        = Some y)
  /\ (forall s secret, sessionModelName (process_start s secret) = None).
Proof.
  split; [apply updateModelConfig_returns |].
  split; [apply updateModelConfig_session |].
  split; [| split; [| split; [| split]]].
  - intros e Hi Hu. unfold updateModelConfig. run_js.
    rewrite Hi, Hu; cbn. now rewrite <- app_assoc.
  - intros Hi Hu. split; [| apply updateModelConfig_session].
    unfold updateModelConfig. run_js. rewrite Hi, Hu. reflexivity.
  - intros ops Hops. rewrite run_keeps_session by assumption.
    apply updateModelConfig_session.
  - intros ops env' y. apply updateModelConfig_session.
  - reflexivity.
Qed.

Lemma C2_selection_sets_session_witness :
  trace (snd (updateModelConfig read_only_settings_env "x" persisted_only_world))
  = [ConfigUpdate "rewriter.model" "x";
     ConsoleWarn
       "Failed to update configuration persistence (using session state):"
       (Some (ErrorObj "Unable to write into user settings"))]
  /\ sessionModelName
       (run [CallGetRewriterConfig "k";
             CmdRewrite read_only_settings_env (Some (mkEditor "hello")) None]
          (snd (updateModelConfig read_only_settings_env "x"
                  persisted_only_world)))
     = Some "x".
Proof.
  pose proof (C2_selection_sets_session read_only_settings_env "x"
                persisted_only_world) as (_ & _ & Hlog & _ & Hkeep & _).
  split.
  - apply (Hlog _ eq_refl eq_refl).
  - apply Hkeep. repeat constructor.
Defined.

(** C8: after selecting the empty string the session variable holds it, yet
    the resolved model name is the persisted model when that is non-empty
    and the default otherwise, never the empty string. *)
Theorem C8_empty_selection_falls_through (env : Env) (k : string) (w : World) :
  let w' := snd (updateModelConfig env "" w) in
  sessionModelName w' = Some ""%string
  /\ (forall m, cfg_model (settings w') = Some m -> m <> ""%string ->
        modelName (getRewriterConfig k w') = m)
  /\ (cfg_model (settings w') = None \/ cfg_model (settings w') = Some ""%string ->
      modelName (getRewriterConfig k w') = DEFAULT_MODEL_NAME)
  /\ modelName (getRewriterConfig k w') <> ""%string.
Proof.
  intros w'.
  assert (Hs : sessionModelName w' = Some ""%string)
    by apply updateModelConfig_session.
  split; [exact Hs |].
  unfold getRewriterConfig; cbn [modelName]. rewrite Hs.
  change (Js.or (Some ""%string) (cfg_model (settings w')))
    with (cfg_model (settings w')).
  repeat split.
  - intros m Hm Hne. now apply or_str_truthy.
  - apply or_str_falsy.
  - destruct (cfg_model (settings w')) as [[|c m]|]; discriminate.
Qed.

Lemma C8_empty_selection_falls_through_witness :
  modelName
    (getRewriterConfig "k"
       (snd (updateModelConfig read_only_settings_env "" persisted_only_world)))
  = "gemini-1.5-pro"%string.
Proof.
  apply (proj1 (proj2 (C8_empty_selection_falls_through
                         read_only_settings_env "k" persisted_only_world))
           "gemini-1.5-pro"%string eq_refl).
  discriminate.
Defined.

(** ** ModelCatalog *)

Lemma listAvailableModels_success env k w r models :
  fetch_models env = FetchResponse r -> ok r = true -> json r = Ok models ->
  fst (listAvailableModels env k w)
  = Ok (map display_name (filter rewrite_capable models)).
Proof.
  intros Hf Hok Hj. unfold listAvailableModels. run_js.
  rewrite Hf; cbn. rewrite Hok; cbn. now rewrite Hj.
Qed.

Lemma not_ok_iff (r : Response) :
  ok r = false <-> (status r < 200 \/ 299 < status r)%N.
Proof.
  unfold ok. rewrite andb_false_iff, !N.leb_gt. reflexivity.
Qed.

(** C7: a rejected fetch and a response outside 200-299 both make
    [listAvailableModels] throw, after logging, the rejection itself or the
    error built from the status text; a list is returned only for a
    response inside 200-299 whose body was read. *)
Theorem C7_transport_failure_propagates (env : Env) (k : string) (w : World) :
  (forall e, fetch_models env = FetchRejected e ->
     fst (listAvailableModels env k w) = Throw e
     /\ trace (snd (listAvailableModels env k w))
        = trace w ++ [Fetch (models_url k);
                      ConsoleError "Failed to list models:" e])
  /\ (forall r, fetch_models env = FetchResponse r ->
        (status r < 200 \/ 299 < status r)%N ->
        fst (listAvailableModels env k w)
        = Throw (ErrorObj ("Failed to fetch models: " ++ statusText r)))
  /\ (forall l, fst (listAvailableModels env k w) = Ok l ->
        exists r models,
          fetch_models env = FetchResponse r
          /\ (200 <= status r <= 299)%N
          /\ json r = Ok models).
Proof.
  repeat split.
  - unfold listAvailableModels. run_js. now rewrite H.
  - unfold listAvailableModels. run_js. rewrite H; cbn.
    now rewrite <- app_assoc.
  - intros r Hf Hst. apply not_ok_iff in Hst.
    unfold listAvailableModels. run_js. rewrite Hf; cbn. now rewrite Hst.
  - intros l. unfold listAvailableModels. run_js.
    destruct (fetch_models env) as [e | r]; cbn; [discriminate |].
    destruct (ok r) eqn:Hok; cbn; [| discriminate].
    destruct (json r) as [models | e] eqn:Hj; cbn; [| discriminate].
    intros _. exists r, models. repeat split; trivial.
    all: unfold ok in Hok; apply andb_true_iff in Hok;
      destruct Hok as [H1 H2]; now apply N.leb_le.
Qed.

Lemma C7_transport_failure_propagates_witness :
  fst (listAvailableModels forbidden_env "k" persisted_only_world)
  = Throw (ErrorObj "Failed to fetch models: Forbidden").
Proof.
  apply (proj1 (proj2 (C7_transport_failure_propagates forbidden_env "k"
                         persisted_only_world))
           {| status := 403; statusText := "Forbidden";
              json := Ok sample_catalog |} eq_refl).
  right. reflexivity.
Defined.

(** C6, at a catalog entry named ["xmodels/foo"]: the returned name is
    ["xfoo"], while stripping the [models/] prefix leaves the name as it
    is. *)
Theorem C6_inner_match_is_removed :
  fst (listAvailableModels (catalog_env inner_match_catalog) "k"
         persisted_only_world)
  = Ok ["xfoo"%string]
  /\ Spec.listRewriteCapableModels inner_match_catalog = ["xmodels/foo"%string].
Proof.
  split; reflexivity.
Qed.

Lemma listAvailableModels_sample_catalog :
  fst (listAvailableModels (catalog_env sample_catalog) "k" persisted_only_world)
  = Ok ["foo"%string].
Proof. reflexivity. Qed.

(** *** [replace] with a string pattern *)

Lemma replace_unfold (pat rep s : string) :
  Js.replace pat rep s
  = if Js.starts_with pat s then (rep ++ Js.drop (String.length pat) s)%string
    else match s with
         | EmptyString => EmptyString
         | String c s' => String c (Js.replace pat rep s')
         end.
Proof. destruct s; reflexivity. Qed.

Lemma index_of_unfold (pat s : string) :
  Js.index_of pat s
  = if Js.starts_with pat s then Some O
    else match s with
         | EmptyString => None
         | String _ s' => option_map S (Js.index_of pat s')
         end.
Proof. destruct s; reflexivity. Qed.

Lemma index_of_none_cons (pat : string) (c : ascii) (s : string) :
  Js.index_of pat (String c s) = None ->
  Js.starts_with pat (String c s) = false /\ Js.index_of pat s = None.
Proof.
  rewrite index_of_unfold.
  destruct (Js.starts_with pat (String c s)); [discriminate |].
  destruct (Js.index_of pat s); [discriminate | now split].
Qed.

Lemma replace_absent (pat rep s : string) :
  Js.index_of pat s = None -> Js.replace pat rep s = s.
Proof.
  induction s as [|c s IH]; intros H; rewrite replace_unfold.
  - rewrite index_of_unfold in H.
    destruct (Js.starts_with pat ""); [discriminate | reflexivity].
  - apply index_of_none_cons in H as [H1 H2].
    rewrite H1. now rewrite IH.
Qed.

Lemma replace_leading (pat s : string) :
  Js.starts_with pat s = true ->
  Js.replace pat "" s = Spec.strip_prefix pat s.
Proof.
  intros H. rewrite replace_unfold. unfold Spec.strip_prefix. now rewrite H.
Qed.

Lemma starts_with_cons (a b : ascii) (pat s : string) :
  Js.starts_with (String a pat) (String b s)
  = Ascii.eqb a b && Js.starts_with pat s.
Proof. reflexivity. Qed.

(** No proper suffix of ["models/"] is a prefix of it, so a match that starts
    inside [pre] ends inside [pre]. *)
Lemma models_match_stays_inside (c : ascii) (pre post : string) :
  Js.starts_with "models/" (String c pre) = false ->
  Js.starts_with "models/" (String c (pre ++ "models/" ++ post)) = false.
Proof.
  intros H.
  do 6 (destruct pre as [|? pre];
        [cbn [String.append]; rewrite !starts_with_cons;
         cbn [Ascii.eqb Bool.eqb]; now rewrite ?andb_false_r |]).
  cbn [String.append]. rewrite !starts_with_cons in *.
  exact H.
Qed.

Lemma replace_models_first (pre post : string) :
  Js.index_of "models/" pre = None ->
  Js.replace "models/" "" (pre ++ "models/" ++ post) = (pre ++ post)%string.
Proof.
  induction pre as [|c pre IH]; intros H.
  - reflexivity.
  - apply index_of_none_cons in H as [H1 H2].
    change (String c pre ++ "models/" ++ post)%string
      with (String c (pre ++ "models/" ++ post)).
    rewrite replace_unfold.
    rewrite (models_match_stays_inside _ _ _ H1).
    now rewrite IH.
Qed.

(** On catalogs whose retained names all start with ["models/"] or do not
    hold it at all, the code returns what prefix stripping returns. *)
Lemma display_name_strip_prefix (m : ModelInfo) :
  Js.starts_with "models/" (name m) = true
  \/ Js.index_of "models/" (name m) = None ->
  display_name m = Spec.strip_prefix "models/" (name m).
Proof.
  unfold display_name. intros [H | H].
  - now apply replace_leading.
  - rewrite replace_absent by assumption. unfold Spec.strip_prefix.
    rewrite index_of_unfold in H.
    destruct (Js.starts_with "models/" (name m)); [discriminate | reflexivity].
Qed.

Lemma listAvailableModels_prefixed env k w r models :
  fetch_models env = FetchResponse r -> ok r = true -> json r = Ok models ->
  Forall (fun m => Js.starts_with "models/" (name m) = true
                   \/ Js.index_of "models/" (name m) = None) models ->
  fst (listAvailableModels env k w) = Ok (Spec.listRewriteCapableModels models).
Proof.
  intros Hf Hok Hj Hall.
  rewrite (listAvailableModels_success env k w r models Hf Hok Hj).
  f_equal. unfold Spec.listRewriteCapableModels. clear Hj.
  induction Hall as [|m l Hm Hl IH]; cbn; [reflexivity |].
  destruct (rewrite_capable m); cbn; [| exact IH].
  now rewrite IH, display_name_strip_prefix.
Qed.

(** C9: the name returned for a catalog entry is its name with the first
    occurrence of ["models/"] removed, wherever that occurrence is: what
    precedes it is kept, and so is everything after it, later occurrences
    included; a name without the substring is returned unchanged. *)
Theorem C9_first_occurrence_removed (m : ModelInfo) :
  (forall pre post,
     name m = (pre ++ "models/" ++ post)%string ->
     Js.index_of "models/" pre = None ->
     display_name m = (pre ++ post)%string)
  /\ (Js.index_of "models/" (name m) = None -> display_name m = name m)
  /\ (forall env k w r models,
        fetch_models env = FetchResponse r -> ok r = true ->
        json r = Ok models ->
        fst (listAvailableModels env k w)
        = Ok (map display_name (filter rewrite_capable models))).
Proof.
  unfold display_name. repeat split.
  - intros pre post -> H. now apply replace_models_first.
  - apply replace_absent.
  - intros. eapply listAvailableModels_success; eassumption.
Qed.

Lemma C9_first_occurrence_removed_witness :
  display_name nested_model = "a/b/models/c"%string
  /\ fst (listAvailableModels (catalog_env [nested_model]) "k"
            persisted_only_world)
     = Ok ["a/b/models/c"%string].
Proof.
  pose proof (C9_first_occurrence_removed nested_model) as (Hfirst & _ & Hlist).
  split.
  - apply (Hfirst "a/"%string "b/models/c"%string eq_refl eq_refl).
  - apply (Hlist (catalog_env [nested_model]) "k"%string persisted_only_world
             {| status := 200; statusText := "OK"; json := Ok [nested_model] |}
             [nested_model] eq_refl eq_refl eq_refl).
Defined.

(** ** RewriteOrchestrator *)

Lemma rewriteFlow_deprecated env text argsPrompt w k :
  secretApiKey w = Some k -> k <> ""%string ->
  modelName (getRewriterConfig k w) = DEPRECATED_MODEL_NAME ->
  rewriteFlow env text argsPrompt w
  = (Ok DeprecatedModelSelected,
     {| sessionModelName := sessionModelName w;
        settings := settings w;
        secretApiKey := secretApiKey w;
        trace := trace w
                   ++ deprecated_warning
                   :: (if Js.strict_eq (warning_choice env) "Select Model"
                       then [ExecuteCommand "rewriter.selectModel"]
                       else []) |}).
Proof.
  intros Hk Hne Hm. unfold rewriteFlow, try_catch, bind, get, ret, emit.
  rewrite Hk. destruct k as [|c k]; [congruence |].
  cbn -[getRewriterConfig String.eqb]. rewrite Hm; cbn.
  destruct (Js.strict_eq (warning_choice env) "Select Model"); cbn;
    rewrite ?Hk, <- ?app_assoc; reflexivity.
Qed.

(** C4: with a credential present and the deprecated model resolved, the
    rewrite flow ends in [DeprecatedModelSelected]; all it does is show the
    warning and, if the user asks for it, start the model selection
    command; no generation request and no other network call is issued,
    also when the flow is entered through the command handler. *)
Theorem C4_deprecated_model_halts (env : Env) (text : string)
  (argsPrompt : option string) (w : World) (k : string) :
  secretApiKey w = Some k -> k <> ""%string ->
  modelName (getRewriterConfig k w) = DEPRECATED_MODEL_NAME ->
  fst (rewriteFlow env text argsPrompt w) = Ok DeprecatedModelSelected
  /\ (exists evs,
        trace (snd (rewriteFlow env text argsPrompt w)) = trace w ++ evs
        /\ hd_error evs = Some deprecated_warning
        /\ existsb is_network evs = false)
  /\ (forall editor,
        selectedText editor <> ""%string ->
        fst (rewrite env (Some editor) argsPrompt w)
        = Ok DeprecatedModelSelected)
  /\ (forall editor,
        exists evs,
          trace (snd (rewrite env editor argsPrompt w)) = trace w ++ evs
          /\ existsb is_network evs = false).
Proof.
  intros Hk Hne Hm.
  pose proof (rewriteFlow_deprecated env text argsPrompt w k Hk Hne Hm) as Hflow.
  assert (Hevs : forall t,
             exists evs,
               trace (snd (rewriteFlow env t argsPrompt w)) = trace w ++ evs
               /\ hd_error evs = Some deprecated_warning
               /\ existsb is_network evs = false).
  { intros t.
    rewrite (rewriteFlow_deprecated env t argsPrompt w k Hk Hne Hm); cbn.
    eexists; split; [reflexivity |].
    split; [reflexivity |].
    destruct (Js.strict_eq (warning_choice env) "Select Model"); reflexivity. }
  split; [now rewrite Hflow |].
  split; [apply Hevs |].
  split.
  - intros editor Htext. unfold rewrite.
    apply truthy_str_nonempty in Htext. rewrite Htext; cbn.
    now rewrite (rewriteFlow_deprecated env _ argsPrompt w k Hk Hne Hm).
  - intros [editor|]; unfold rewrite.
    + destruct (Js.truthy_str (selectedText editor)); cbn.
      * destruct (Hevs (selectedText editor)) as (evs & He & _ & Hn).
        now exists evs.
      * eexists; split; reflexivity.
    + eexists; split; reflexivity.
Qed.

Lemma C4_deprecated_model_halts_witness :
  fst (rewriteFlow read_only_settings_env "hello" None deprecated_world)
  = Ok DeprecatedModelSelected.
Proof.
  apply (C4_deprecated_model_halts read_only_settings_env "hello" None
           deprecated_world "k" eq_refl).
  - discriminate.
  - reflexivity.
Defined.

(** * Further properties of the module and the commands *)

(** ** The rewrite command, exit by exit *)

Lemma truthy_some_nonempty (v : option string) :
  Js.truthy v = true <-> exists s, v = Some s /\ s <> ""%string.
Proof.
  split.
  - destruct v as [[|c s]|]; cbn; try discriminate.
    intros _. eexists; split; [reflexivity | discriminate].
  - intros (s & -> & H). destruct s; [congruence | reflexivity].
Qed.

Lemma eqb_deprecated_false (s : string) :
  s <> DEPRECATED_MODEL_NAME -> String.eqb s DEPRECATED_MODEL_NAME = false.
Proof. intros H. now apply String.eqb_neq. Qed.

Lemma rewriteFlow_no_credential env text argsPrompt w :
  Js.truthy (secretApiKey w) = false ->
  rewriteFlow env text argsPrompt w
  = (Ok MissingCredential,
     add_events w
       [ShowErrorMessage
          "Please set the API key first by running the command 'Rewriter: Set API Key'"]).
Proof.
  intros H. unfold rewriteFlow. step_js.
  destruct (secretApiKey w) as [[|c k]|] eqn:E; try discriminate;
    cbn; rewrite ?E; reflexivity.
Qed.

Lemma rewriteFlow_generates env text argsPrompt w k :
  secretApiKey w = Some k -> k <> ""%string ->
  modelName (getRewriterConfig k w) <> DEPRECATED_MODEL_NAME ->
  rewriteFlow env text argsPrompt w
  = match generate env (modelName (getRewriterConfig k w))
            (build_parts (getRewriterConfig k w) (context_of text argsPrompt))
    with
    | Ok result =>
        (Ok (Succeeded result),
         add_events w
           [request_of (getRewriterConfig k w) (context_of text argsPrompt);
            ReplaceSelection result])
    | Throw error =>
        (Ok (GenerationFailed error),
         add_events w
           [request_of (getRewriterConfig k w) (context_of text argsPrompt);
            ConsoleError "Rewrite Error:" error;
            ShowErrorMessage (rewrite_failure_message error)])
    end.
Proof.
  intros Hk Hne Hm. apply eqb_deprecated_false in Hm.
  unfold rewriteFlow, generateRewrite, request_of, context_of,
    rewrite_failure_message.
  step_js. rewrite Hk. destruct k as [|c k]; [congruence |].
  step_js. rewrite Hm. step_js.
  destruct (generate env _ _) as [result | error]; step_js;
    rewrite ?Hk, <- ?app_assoc; reflexivity.
Qed.

Lemma rewrite_enters_flow env editor argsPrompt w :
  selectedText editor <> ""%string ->
  rewrite env (Some editor) argsPrompt w
  = rewriteFlow env (selectedText editor) argsPrompt w.
Proof.
  intros H. apply truthy_str_nonempty in H. unfold rewrite. now rewrite H.
Qed.

(** X1: with a credential stored, text selected and a model other than the
    deprecated one resolved, a generation that answers [result] makes the
    command end in [Succeeded result]; it sends one request, carrying the
    resolved model, the four safety settings and the assembled parts, and
    then replaces the selection once, with [result]; nothing else happens
    and the module state is as before. *)
Theorem X1_rewrite_success (env : Env) (editor : Editor)
  (argsPrompt : option string) (w : World) (k result : string) :
  secretApiKey w = Some k -> k <> ""%string ->
  selectedText editor <> ""%string ->
  modelName (getRewriterConfig k w) <> DEPRECATED_MODEL_NAME ->
  generate env (modelName (getRewriterConfig k w))
    (build_parts (getRewriterConfig k w)
       (context_of (selectedText editor) argsPrompt))
  = Ok result ->
  rewrite env (Some editor) argsPrompt w
  = (Ok (Succeeded result),
     add_events w
       [request_of (getRewriterConfig k w)
          (context_of (selectedText editor) argsPrompt);
        ReplaceSelection result]).
Proof.
  intros Hk Hne Htext Hm Hgen.
  rewrite rewrite_enters_flow by assumption.
  rewrite (rewriteFlow_generates env _ argsPrompt w k Hk Hne Hm).
  now rewrite Hgen.
Qed.

Lemma X1_rewrite_success_witness :
  rewrite read_only_settings_env (Some hello_editor) None persisted_only_world
  = (Ok (Succeeded "HELLO"),
     add_events persisted_only_world
       [GenerateContent "gemini-1.5-pro" SAFETY_SETTINGS
          ["instruction: Fix the grammar"; "input: hello"; "output: "]%string;
        ReplaceSelection "HELLO"]).
Proof.
  apply (X1_rewrite_success read_only_settings_env hello_editor None
           persisted_only_world "k" "HELLO" eq_refl).
  - discriminate.
  - discriminate.
  - discriminate.
  - reflexivity.
Defined.

(** X2: under the same conditions, a generation that fails with [error]
    makes the command end in [GenerationFailed error]: after the one request
    the error is logged and shown as ["Rewrite failed: "] followed by its
    message (or as an unknown error when it is not an [Error]), and the
    selection is not replaced. *)
Theorem X2_rewrite_generation_failure (env : Env) (editor : Editor)
  (argsPrompt : option string) (w : World) (k : string) (error : Thrown) :
  secretApiKey w = Some k -> k <> ""%string ->
  selectedText editor <> ""%string ->
  modelName (getRewriterConfig k w) <> DEPRECATED_MODEL_NAME ->
  generate env (modelName (getRewriterConfig k w))
    (build_parts (getRewriterConfig k w)
       (context_of (selectedText editor) argsPrompt))
  = Throw error ->
  rewrite env (Some editor) argsPrompt w
  = (Ok (GenerationFailed error),
     add_events w
       [request_of (getRewriterConfig k w)
          (context_of (selectedText editor) argsPrompt);
        ConsoleError "Rewrite Error:" error;
        ShowErrorMessage (rewrite_failure_message error)])
  /\ existsb is_replacement
       (trace (snd (rewrite env (Some editor) argsPrompt w))) 
     = existsb is_replacement (trace w).
Proof.
  intros Hk Hne Htext Hm Hgen.
  rewrite rewrite_enters_flow by assumption.
  rewrite (rewriteFlow_generates env _ argsPrompt w k Hk Hne Hm).
  rewrite Hgen. split; [reflexivity |].
  cbn. rewrite existsb_app. cbn. now rewrite orb_false_r.
Qed.

Lemma X2_rewrite_generation_failure_witness :
  rewrite quota_env (Some hello_editor) None persisted_only_world
  = (Ok (GenerationFailed (ErrorObj "quota exceeded")),
     add_events persisted_only_world
       [GenerateContent "gemini-1.5-pro" SAFETY_SETTINGS
          ["instruction: Fix the grammar"; "input: hello"; "output: "]%string;
        ConsoleError "Rewrite Error:" (ErrorObj "quota exceeded");
        ShowErrorMessage "Rewrite failed: quota exceeded"]).
Proof.
  apply (X2_rewrite_generation_failure quota_env hello_editor None
           persisted_only_world "k" (ErrorObj "quota exceeded") eq_refl).
  - discriminate.
  - discriminate.
  - discriminate.
  - reflexivity.
Defined.

(** X3: the command checks, in this order, for an editor, for selected text
    and for a stored credential; each missing one ends the command with its
    own outcome and a single error message, and nothing else is done. *)
Theorem X3_rewrite_guards (env : Env) (argsPrompt : option string) (w : World) :
  rewrite env None argsPrompt w
  = (Ok NoActiveEditor,
     add_events w [ShowErrorMessage "No active editor found"])
  /\ (forall editor,
        selectedText editor = ""%string ->
        rewrite env (Some editor) argsPrompt w
        = (Ok NoTextSelected,
           add_events w [ShowErrorMessage "No text selected"]))
  /\ (forall editor,
        selectedText editor <> ""%string ->
        secretApiKey w = None \/ secretApiKey w = Some ""%string ->
        rewrite env (Some editor) argsPrompt w
        = (Ok MissingCredential,
           add_events w
             [ShowErrorMessage
                "Please set the API key first by running the command 'Rewriter: Set API Key'"])).
Proof.
  split; [reflexivity | split].
  - intros editor H. unfold rewrite. now rewrite H.
  - intros editor Htext Hk. rewrite rewrite_enters_flow by assumption.
    apply rewriteFlow_no_credential. now destruct Hk as [-> | ->].
Qed.

Lemma X3_rewrite_guards_witness :
  rewrite read_only_settings_env (Some hello_editor) None no_secret_world
  = (Ok MissingCredential,
     add_events no_secret_world
       [ShowErrorMessage
          "Please set the API key first by running the command 'Rewriter: Set API Key'"]).
Proof.
  apply (proj2 (proj2 (X3_rewrite_guards read_only_settings_env None
                         no_secret_world)) hello_editor).
  - discriminate.
  - left. reflexivity.
Defined.

Lemma rewriteFlow_cases env text argsPrompt w :
  (exists ev,
     rewriteFlow env text argsPrompt w = (Ok MissingCredential, add_events w [ev])
     /\ is_network ev = false /\ is_replacement ev = false
     /\ is_settings_write ev = false)
  \/ (exists k,
        secretApiKey w = Some k /\ k <> ""%string
        /\ modelName (getRewriterConfig k w) = DEPRECATED_MODEL_NAME
        /\ rewriteFlow env text argsPrompt w
           = (Ok DeprecatedModelSelected,
              add_events w
                (deprecated_warning
                 :: (if Js.strict_eq (warning_choice env) "Select Model"
                     then [ExecuteCommand "rewriter.selectModel"]
                     else []))))
  \/ (exists k result,
        secretApiKey w = Some k /\ k <> ""%string
        /\ modelName (getRewriterConfig k w) <> DEPRECATED_MODEL_NAME
        /\ rewriteFlow env text argsPrompt w
           = (Ok (Succeeded result),
              add_events w
                [request_of (getRewriterConfig k w) (context_of text argsPrompt);
                 ReplaceSelection result]))
  \/ (exists k error,
        secretApiKey w = Some k /\ k <> ""%string
        /\ modelName (getRewriterConfig k w) <> DEPRECATED_MODEL_NAME
        /\ rewriteFlow env text argsPrompt w
           = (Ok (GenerationFailed error),
              add_events w
                [request_of (getRewriterConfig k w) (context_of text argsPrompt);
                 ConsoleError "Rewrite Error:" error;
                 ShowErrorMessage (rewrite_failure_message error)])).
Proof.
  destruct (Js.truthy (secretApiKey w)) eqn:Hk.
  - apply truthy_some_nonempty in Hk as (k & Hk & Hne).
    destruct (String.eqb (modelName (getRewriterConfig k w))
                DEPRECATED_MODEL_NAME) eqn:Hm.
    + apply String.eqb_eq in Hm. right; left. exists k.
      repeat split; trivial.
      now rewrite (rewriteFlow_deprecated env text argsPrompt w k Hk Hne Hm).
    + apply String.eqb_neq in Hm.
      pose proof (rewriteFlow_generates env text argsPrompt w k Hk Hne Hm) as H.
      destruct (generate env _ _) as [result | error].
      * right; right; left. now exists k, result.
      * right; right; right. now exists k, error.
  - left. eexists. split; [now apply rewriteFlow_no_credential |].
    repeat split.
Qed.

(** X4: however the command ends, it does not throw and leaves the session
    model, the settings and the secret as they were; it issues at most one
    network call, never a catalog fetch and never a settings write, and it
    replaces the selection only when it ends in [Succeeded], with the text
    that outcome carries. *)
Theorem X4_rewrite_footprint (env : Env) (editor : option Editor)
  (argsPrompt : option string) (w : World) :
  exists out evs,
    rewrite env editor argsPrompt w = (Ok out, add_events w evs)
    /\ List.length (filter is_network evs) <= 1
    /\ (forall url, ~ In (Fetch url) evs)
    /\ existsb is_settings_write evs = false
    /\ (forall t, In (ReplaceSelection t) evs -> out = Succeeded t).
Proof.
  destruct editor as [editor|].
  2:{ do 2 eexists. split; [reflexivity |]. cbn.
      repeat split; try lia; intros ? [H | []]; discriminate. }
  unfold rewrite. destruct (Js.truthy_str (selectedText editor)); cbn.
  2:{ do 2 eexists. split; [reflexivity |]. cbn.
      repeat split; try lia; intros ? [H | []]; discriminate. }
  destruct (rewriteFlow_cases env (selectedText editor) argsPrompt w)
    as [(ev & -> & Hn & Hr & Hs)
       | [(k & _ & _ & _ & ->)
         | [(k & result & _ & _ & _ & ->) | (k & error & _ & _ & _ & ->)]]];
    do 2 eexists; (split; [reflexivity |]).
  - cbn. rewrite Hn, Hs. cbn. repeat split; try lia.
    + intros url [H | []]. subst ev. discriminate.
    + intros t [H | []]. subst ev. discriminate.
  - destruct (Js.strict_eq (warning_choice env) "Select Model"); cbn;
      repeat split; try lia; intros ? H; cbn in H; intuition discriminate.
  - cbn. repeat split; try lia.
    + intros url H; cbn in H; intuition discriminate.
    + intros t [H | [[= <-] | []]]; [discriminate | reflexivity].
  - cbn. repeat split; try lia; intros ? H; cbn in H; intuition discriminate.
Qed.

(** X5: the command ends in [DeprecatedModelSelected] only when the
    deprecated name was chosen: it is the session model, or there is no
    usable session model and it is the persisted model; the built-in default
    never leads there. *)
Theorem X5_deprecated_only_when_chosen (env : Env) (editor : option Editor)
  (argsPrompt : option string) (w : World) :
  fst (rewrite env editor argsPrompt w) = Ok DeprecatedModelSelected ->
  sessionModelName w = Some DEPRECATED_MODEL_NAME
  \/ ((sessionModelName w = None \/ sessionModelName w = Some ""%string)
      /\ cfg_model (settings w) = Some DEPRECATED_MODEL_NAME).
Proof.
  destruct editor as [editor|]; [| discriminate].
  unfold rewrite. destruct (Js.truthy_str (selectedText editor)); cbn;
    [| discriminate].
  destruct (rewriteFlow_cases env (selectedText editor) argsPrompt w)
    as [(ev & -> & _)
       | [(k & _ & _ & Hm & _)
         | [(k & result & _ & _ & _ & ->) | (k & error & _ & _ & _ & ->)]]];
    try discriminate.
  intros _. revert Hm. unfold getRewriterConfig; cbn [modelName].
  destruct (sessionModelName w) as [[|c s]|]; cbn.
  - destruct (cfg_model (settings w)) as [[|c m]|]; cbn;
      [discriminate | | discriminate].
    intros ->. right. split; [now right | reflexivity].
  - intros ->. now left.
  - destruct (cfg_model (settings w)) as [[|c m]|]; cbn;
      [discriminate | | discriminate].
    intros ->. right. split; [now left | reflexivity].
Qed.

Lemma X5_deprecated_only_when_chosen_witness :
  sessionModelName deprecated_world = Some DEPRECATED_MODEL_NAME
  \/ ((sessionModelName deprecated_world = None
       \/ sessionModelName deprecated_world = Some ""%string)
      /\ cfg_model (settings deprecated_world) = Some DEPRECATED_MODEL_NAME).
Proof.
  apply (X5_deprecated_only_when_chosen read_only_settings_env
           (Some hello_editor) None deprecated_world).
  reflexivity.
Defined.

(** ** The catalog request *)

Lemma listAvailableModels_cases env k w :
  listAvailableModels env k w
  = match fetch_models env with
    | FetchRejected e =>
        (Throw e,
         add_events w
           [Fetch (models_url k); ConsoleError "Failed to list models:" e])
    | FetchResponse r =>
        if ok r
        then
          match json r with
          | Ok models =>
              (Ok (map display_name (filter rewrite_capable models)),
               add_events w [Fetch (models_url k)])
          | Throw e =>
              (Throw e,
               add_events w
                 [Fetch (models_url k);
                  ConsoleError "Failed to list models:" e])
          end
        else
          (Throw (ErrorObj ("Failed to fetch models: " ++ statusText r)),
           add_events w
             [Fetch (models_url k);
              ConsoleError "Failed to list models:"
                (ErrorObj ("Failed to fetch models: " ++ statusText r))])
    end.
Proof.
  unfold listAvailableModels. step_js.
  destruct (fetch_models env) as [e | r]; step_js.
  - now rewrite <- app_assoc.
  - destruct (ok r); step_js.
    + destruct (json r); step_js; now rewrite <- ?app_assoc.
    + now rewrite <- app_assoc.
Qed.

(** X6: [listAvailableModels] sends exactly one request, to the models
    endpoint with the key in the query string, and touches nothing else; when
    it returns a list nothing is logged; when it throws, whatever the cause
    (a rejected fetch, a status outside 200-299, a body that cannot be
    read), the thrown value is logged once and is the one the caller
    receives. *)
Theorem X6_catalog_request_footprint (env : Env) (k : string) (w : World) :
  exists logged,
    snd (listAvailableModels env k w)
    = add_events w
        (Fetch ("https://generativelanguage.googleapis.com/v1beta/models?key="
                  ++ k)
         :: logged)
    /\ match fst (listAvailableModels env k w) with
       | Ok _ => logged = []
       | Throw e => logged = [ConsoleError "Failed to list models:" e]
       end
    /\ (forall r e,
          fetch_models env = FetchResponse r -> ok r = true ->
          json r = Throw e ->
          fst (listAvailableModels env k w) = Throw e).
Proof.
  rewrite listAvailableModels_cases.
  destruct (fetch_models env) as [e | r].
  - eexists; repeat split. discriminate.
  - destruct (ok r) eqn:Hok.
    + destruct (json r) as [models | e] eqn:Hj; eexists; repeat split.
      * intros r' e' [= <-] _ H. congruence.
      * intros r' e' [= <-] _ H. cbn. congruence.
    + eexists; repeat split. intros r' e' [= <-] H. congruence.
Qed.

Lemma X6_catalog_request_footprint_witness :
  fst (listAvailableModels
         (with_fetch
            (FetchResponse {| status := 200; statusText := "OK";
                              json := Throw (ErrorObj "Unexpected token") |})
            read_only_settings_env)
         "k" persisted_only_world)
  = Throw (ErrorObj "Unexpected token").
Proof.
  destruct (X6_catalog_request_footprint
              (with_fetch
                 (FetchResponse {| status := 200; statusText := "OK";
                                   json := Throw (ErrorObj "Unexpected token") |})
                 read_only_settings_env)
              "k" persisted_only_world) as (logged & _ & _ & H).
  apply (H {| status := 200; statusText := "OK";
              json := Throw (ErrorObj "Unexpected token") |}
           (ErrorObj "Unexpected token") eq_refl eq_refl eq_refl).
Defined.

Lemma includes_In (arr : list string) (x : string) :
  Js.includes arr x = true <-> In x arr.
Proof.
  unfold Js.includes. rewrite existsb_exists. split.
  - intros (y & Hy & E). apply String.eqb_eq in E. now subst.
  - intros H. exists x. split; [exact H | apply String.eqb_refl].
Qed.

(** X7: from a readable response with status in 200-299, the returned names
    are exactly the names, with the first ["models/"] removed, of the
    entries that list ["generateContent"]; there are no more of them than
    entries, and when no entry lists it the result is the empty list, not
    an error. *)
Theorem X7_catalog_members (env : Env) (k : string) (w : World)
  (r : Response) (models : list ModelInfo) :
  fetch_models env = FetchResponse r -> ok r = true -> json r = Ok models ->
  exists names,
    fst (listAvailableModels env k w) = Ok names
    /\ (forall n,
          In n names
          <-> exists m,
                In m models
                /\ In "generateContent"%string (supportedGenerationMethods m)
                /\ n = Js.replace "models/" "" (name m))
    /\ List.length names <= List.length models
    /\ ((forall m, In m models ->
           ~ In "generateContent"%string (supportedGenerationMethods m)) ->
        names = []).
Proof.
  intros Hf Hok Hj. rewrite listAvailableModels_cases, Hf, Hok, Hj.
  eexists. split; [reflexivity |]. repeat split.
  - intros H. apply in_map_iff in H as (m & <- & Hm).
    apply filter_In in Hm as [Hin Hcap]. exists m.
    repeat split; trivial. now apply includes_In.
  - intros (m & Hin & Hcap & ->). apply in_map_iff. exists m.
    split; [reflexivity |]. apply filter_In. split; trivial.
    now apply includes_In.
  - rewrite length_map. apply filter_length_le.
  - intros Hnone.
    assert (E : filter rewrite_capable models = []); [| now rewrite E].
    clear Hj. induction models as [|m l IH]; cbn; [reflexivity |].
    destruct (rewrite_capable m) eqn:Hcap.
    + apply includes_In in Hcap. now destruct (Hnone m (or_introl eq_refl)).
    + apply IH. intros m' Hm'. apply Hnone. now right.
Qed.

Lemma X7_catalog_members_witness :
  exists names,
    fst (listAvailableModels (catalog_env embedding_only_catalog) "k"
           persisted_only_world) = Ok names
    /\ names = [].
Proof.
  destruct (X7_catalog_members (catalog_env embedding_only_catalog) "k"
              persisted_only_world
              {| status := 200; statusText := "OK";
                 json := Ok embedding_only_catalog |}
              embedding_only_catalog eq_refl eq_refl eq_refl)
    as (names & Hret & _ & _ & Hnone).
  exists names. split; [exact Hret |].
  apply Hnone. intros m [<- | []] [H | []]. discriminate.
Defined.

(** ** The model selection command *)

Lemma selectModel_no_credential env w :
  Js.truthy (secretApiKey w) = false ->
  selectModel env w
  = (Ok MissingCredential, add_events w [ShowErrorMessage MISSING_KEY_MESSAGE]).
Proof.
  intros H. unfold selectModel. step_js.
  destruct (secretApiKey w) as [[|c k]|] eqn:E; try discriminate;
    cbn; rewrite ?E; reflexivity.
Qed.

Lemma selectModel_with_credential env w k :
  secretApiKey w = Some k -> k <> ""%string ->
  selectModel env w
  = match listAvailableModels env k w with
    | (Throw e, w1) =>
        (Ok (SelectionFailed e),
         add_events w1
           [ConsoleError "Select Model Error:" e;
            ShowErrorMessage
              ("Failed to list models: " ++ error_message_or e "Unknown error")])
    | (Ok [], w1) =>
        (Ok (SelectionFailed (ErrorObj NO_MODELS_MESSAGE)),
         add_events w1
           [ConsoleError "Select Model Error:" (ErrorObj NO_MODELS_MESSAGE);
            ShowErrorMessage ("Failed to list models: " ++ NO_MODELS_MESSAGE)])
    | (Ok models, w1) =>
        match quick_pick env models with
        | Some (String _ _ as m) =>
            (Ok (ModelSelected m),
             add_events
               (snd (updateModelConfig env m
                       (add_events w1 [ShowQuickPick models])))
               [ShowInformationMessage ("Rewriter model set to: " ++ m)])
        | _ => (Ok SelectionDismissed, add_events w1 [ShowQuickPick models])
        end
    end.
Proof.
  intros Hk Hne. destruct k as [|c k]; [congruence |].
  unfold selectModel, try_catch, bind, get. rewrite Hk.
  destruct (listAvailableModels env (String c k) w) as [[models | e] w1].
  - destruct models as [|n models].
    + unfold throw, emit, ret, add_events; cbn. now rewrite <- app_assoc.
    + cbn [List.length Nat.eqb]. unfold ret at 1.
      unfold emit at 1. fold (add_events w1 [ShowQuickPick (n :: models)]).
      destruct (quick_pick env (n :: models)) as [[|c' m]|];
        cbn [Js.truthy Js.truthy_str]; try reflexivity.
      cbn [Js.or_str Js.or Js.truthy Js.truthy_str].
      pose proof (updateModelConfig_returns env (String c' m)
                    (add_events w1 [ShowQuickPick (n :: models)])) as Hret.
      destruct (updateModelConfig env (String c' m)
                  (add_events w1 [ShowQuickPick (n :: models)]))
        as [[[]|e] w2]; cbn in Hret; [| discriminate].
      reflexivity.
  - unfold emit, ret, add_events; cbn. now rewrite <- app_assoc.
Qed.

(** ** Model selection and the settings *)

Lemma updateModelConfig_cases env x w :
  updateModelConfig env x w
  = (Ok tt,
     match inspect_model env with
     | InspectThrows e => selected x (settings w) [persistence_warning e] w
     | InspectUndefined => selected x (settings w) [KEY_NOT_FOUND_WARNING] w
     | InspectFound =>
         match update_model env with
         | UpdateDone =>
             selected x (with_model (Some x) (settings w))
               [ConfigUpdate "rewriter.model" x] w
         | UpdateThrows e =>
             selected x (settings w)
               [ConfigUpdate "rewriter.model" x; persistence_warning e] w
         end
     end).
Proof.
  unfold updateModelConfig, selected. step_js.
  destruct (inspect_model env); step_js; try reflexivity.
  destruct (update_model env); step_js; [reflexivity |].
  now rewrite <- app_assoc.
Qed.

(** X8: [updateModelConfig] attempts the settings write only when the key
    is registered.  The persisted model becomes the selected one exactly
    when the key is registered and the write succeeds; in every other case
    the settings are untouched and one warning is logged.  The prompt and
    examples settings and the stored secret are never touched. *)
Theorem X8_settings_write_conditions (env : Env) (x : string) (w : World) :
  let w' := snd (updateModelConfig env x w) in
  (inspect_model env = InspectFound -> update_model env = UpdateDone ->
   settings w' = with_model (Some x) (settings w)
   /\ trace w' = trace w ++ [ConfigUpdate "rewriter.model" x])
  /\ (inspect_model env <> InspectFound \/ update_model env <> UpdateDone ->
      settings w' = settings w
      /\ exists evs warning e,
           trace w' = trace w ++ evs ++ [ConsoleWarn warning e])
  /\ (inspect_model env <> InspectFound ->
      exists warning e, trace w' = trace w ++ [ConsoleWarn warning e])
  /\ cfg_prompt (settings w') = cfg_prompt (settings w)
  /\ cfg_examples (settings w') = cfg_examples (settings w)
  /\ secretApiKey w' = secretApiKey w.
Proof.
  intros w'. subst w'. rewrite updateModelConfig_cases. cbn [snd].
  destruct (inspect_model env) as [e | |]; [| | destruct (update_model env)];
    cbn; (split; [| split; [| split; [| repeat split]]]).
  - discriminate.
  - intros _. split; [reflexivity |]. exists []. now do 2 eexists.
  - intros _. now do 2 eexists.
  - discriminate.
  - intros _. split; [reflexivity |]. exists []. now do 2 eexists.
  - intros _. now do 2 eexists.
  - intros _ _. now split.
  - intros [H | H]; congruence.
  - congruence.
  - discriminate.
  - intros _. split; [reflexivity |].
    exists [ConfigUpdate "rewriter.model" x]. now do 2 eexists.
  - congruence.
Qed.

Lemma X8_settings_write_conditions_witness :
  settings (snd (updateModelConfig unregistered_env "x" persisted_only_world))
  = settings persisted_only_world.
Proof.
  apply (proj1 (proj2 (X8_settings_write_conditions unregistered_env "x"
                         persisted_only_world))).
  left. discriminate.
Defined.

Lemma modelName_of_session (k x : string) (w : World) :
  sessionModelName w = Some x -> x <> ""%string ->
  modelName (getRewriterConfig k w) = x.
Proof.
  intros Hs Hne. unfold getRewriterConfig; cbn [modelName]. rewrite Hs.
  destruct x; [congruence | reflexivity].
Qed.



(** X10: after [updateModelConfig x], for a non-empty [x] other than the
    deprecated name, and through any later steps that select no model, the
    resolved model is [x] whatever the settings hold, and a rewrite with a
    credential and selected text first sends a generation request to model
    [x]. *)
Theorem X10_selected_model_is_requested (env env' : Env) (x : string)
  (w : World) (ops : list Op) (editor : Editor) (argsPrompt : option string)
  (k : string) :
  x <> ""%string -> x <> DEPRECATED_MODEL_NAME ->
  Forall (fun op => selects_model op = false) ops ->
  secretApiKey (run ops (snd (updateModelConfig env x w))) = Some k ->
  k <> ""%string -> selectedText editor <> ""%string ->
  let w2 := run ops (snd (updateModelConfig env x w)) in
  modelName (getRewriterConfig k w2) = x
  /\ exists out rest,
       rewrite env' (Some editor) argsPrompt w2
       = (Ok out,
          add_events w2
            (GenerateContent x SAFETY_SETTINGS
               (build_parts (getRewriterConfig k w2)
                  (context_of (selectedText editor) argsPrompt))
             :: rest)).
Proof.
  intros Hx Hdep Hops Hk Hne Htext w2.
  assert (Hm : modelName (getRewriterConfig k w2) = x).
  { apply modelName_of_session; [| exact Hx]. subst w2.
    rewrite run_keeps_session by assumption.
    apply updateModelConfig_session. }
  split; [exact Hm |].
  rewrite rewrite_enters_flow by assumption.
  rewrite (rewriteFlow_generates env' _ argsPrompt w2 k Hk Hne)
    by (rewrite Hm; exact Hdep).
  unfold request_of. rewrite Hm.
  destruct (generate env' x _); do 2 eexists; reflexivity.
Qed.

Lemma X10_selected_model_is_requested_witness :
  modelName
    (getRewriterConfig "k"
       (run [CallGetRewriterConfig "k"]
          (snd (updateModelConfig read_only_settings_env "gemini-1.5-flash"
                  deprecated_world))))
  = "gemini-1.5-flash"%string.
Proof.
  apply (X10_selected_model_is_requested read_only_settings_env
           read_only_settings_env "gemini-1.5-flash" deprecated_world
           [CallGetRewriterConfig "k"] hello_editor None "k").
  - discriminate.
  - discriminate.
  - repeat constructor.
  - reflexivity.
  - discriminate.
  - discriminate.
Defined.

Lemma no_capable_filter (models : list ModelInfo) :
  (forall m, In m models ->
     ~ In "generateContent"%string (supportedGenerationMethods m)) ->
  filter rewrite_capable models = [].
Proof.
  induction models as [|m l IH]; intros Hnone; cbn; [reflexivity |].
  destruct (rewrite_capable m) eqn:Hcap.
  - apply includes_In in Hcap. now destruct (Hnone m (or_introl eq_refl)).
  - apply IH. intros m' Hm'. apply Hnone. now right.
Qed.

Lemma listAvailableModels_world env k w :
  exists evs, snd (listAvailableModels env k w) = add_events w evs.
Proof.
  rewrite listAvailableModels_cases.
  destruct (fetch_models env) as [e | r]; [now eexists |].
  destruct (ok r); [| now eexists].
  destruct (json r); now eexists.
Qed.

(** X11: the selection command never throws and never touches the secret or
    the prompt and examples settings.  When it ends in [ModelSelected m],
    [m] is non-empty, it is the session model, and it is the model resolved
    next, whether or not the settings write worked; with any other outcome
    the session model and the settings are as before. *)
Theorem X11_selectModel_effect (env : Env) (w : World) :
  exists out,
    fst (selectModel env w) = Ok out
    /\ secretApiKey (snd (selectModel env w)) = secretApiKey w
    /\ cfg_prompt (settings (snd (selectModel env w))) = cfg_prompt (settings w)
    /\ cfg_examples (settings (snd (selectModel env w)))
       = cfg_examples (settings w)
    /\ match out with
       | ModelSelected m =>
           m <> ""%string
           /\ sessionModelName (snd (selectModel env w)) = Some m
           /\ forall k, modelName (getRewriterConfig k (snd (selectModel env w))) = m
       | _ =>
           sessionModelName (snd (selectModel env w)) = sessionModelName w
           /\ settings (snd (selectModel env w)) = settings w
       end.
Proof.
  destruct (Js.truthy (secretApiKey w)) eqn:Hk.
  2:{ rewrite selectModel_no_credential by assumption.
      eexists. repeat split. }
  apply truthy_some_nonempty in Hk as (k & Hk & Hne).
  rewrite (selectModel_with_credential env w k Hk Hne).
  destruct (listAvailableModels_world env k w) as (evs & Hw).
  destruct (listAvailableModels env k w) as [[models | e] w1];
    cbn [snd] in Hw; subst w1.
  2:{ eexists. repeat split. }
  destruct models as [|n models]; [eexists; repeat split |].
  destruct (quick_pick env (n :: models)) as [[|c m]|];
    [eexists; repeat split | | eexists; repeat split].
  rewrite updateModelConfig_cases. cbn [fst snd].
  eexists. split; [reflexivity |].
  destruct (inspect_model env); [| | destruct (update_model env)]; cbn;
    repeat split; try discriminate; reflexivity.
Qed.

(** X12: with a credential stored, a readable catalog in which no entry
    lists ["generateContent"] ends the selection command in a failure of its
    own: after the one fetch the error is logged and shown as a failure to
    list models; no pick list is offered and the state is as before. *)
Theorem X12_selectModel_empty_catalog (env : Env) (w : World) (k : string)
  (r : Response) (models : list ModelInfo) :
  secretApiKey w = Some k -> k <> ""%string ->
  fetch_models env = FetchResponse r -> ok r = true -> json r = Ok models ->
  (forall m, In m models ->
     ~ In "generateContent"%string (supportedGenerationMethods m)) ->
  selectModel env w
  = (Ok (SelectionFailed
           (ErrorObj "No available models found for generateContent.")),
     add_events w
       [Fetch (models_url k);
        ConsoleError "Select Model Error:"
          (ErrorObj "No available models found for generateContent.");
        ShowErrorMessage
          "Failed to list models: No available models found for generateContent."]).
Proof.
  intros Hk Hne Hf Hok Hj Hnone.
  rewrite (selectModel_with_credential env w k Hk Hne).
  rewrite listAvailableModels_cases, Hf, Hok, Hj.
  rewrite (no_capable_filter models Hnone). cbn [map].
  unfold add_events; cbn. now rewrite <- app_assoc.
Qed.

Lemma X12_selectModel_empty_catalog_witness :
  fst (selectModel (catalog_env embedding_only_catalog) persisted_only_world)
  = Ok (SelectionFailed
          (ErrorObj "No available models found for generateContent.")).
Proof.
  rewrite (X12_selectModel_empty_catalog (catalog_env embedding_only_catalog)
             persisted_only_world "k"
             {| status := 200; statusText := "OK";
                json := Ok embedding_only_catalog |}
             embedding_only_catalog eq_refl).
  - reflexivity.
  - discriminate.
  - reflexivity.
  - reflexivity.
  - reflexivity.
  - intros m [<- | []] [H | []]. discriminate.
Defined.

(** X13: with a credential stored, a catalog request that fails ends the
    selection command in [SelectionFailed] with the failure itself: it is
    logged by the request and again by the command, and shown after
    ["Failed to list models: "] with its message, which for a status
    outside 200-299 is ["Failed to fetch models: "] and the status text; the
    state is as before and no pick list is offered. *)
Theorem X13_selectModel_catalog_failure (env : Env) (w : World) (k : string) :
  secretApiKey w = Some k -> k <> ""%string ->
  (forall e,
     fetch_models env = FetchRejected e ->
     selectModel env w
     = (Ok (SelectionFailed e),
        add_events w
          [Fetch (models_url k);
           ConsoleError "Failed to list models:" e;
           ConsoleError "Select Model Error:" e;
           ShowErrorMessage
             ("Failed to list models: " ++ error_message_or e "Unknown error")]))
  /\ (forall r,
        fetch_models env = FetchResponse r -> ok r = false ->
        selectModel env w
        = (Ok (SelectionFailed
                 (ErrorObj ("Failed to fetch models: " ++ statusText r))),
           add_events w
             [Fetch (models_url k);
              ConsoleError "Failed to list models:"
                (ErrorObj ("Failed to fetch models: " ++ statusText r));
              ConsoleError "Select Model Error:"
                (ErrorObj ("Failed to fetch models: " ++ statusText r));
              ShowErrorMessage
                ("Failed to list models: Failed to fetch models: "
                   ++ statusText r)])).
Proof.
  intros Hk Hne. split.
  - intros e Hf. rewrite (selectModel_with_credential env w k Hk Hne).
    rewrite listAvailableModels_cases, Hf.
    unfold add_events; cbn. now rewrite <- app_assoc.
  - intros r Hf Hok. rewrite (selectModel_with_credential env w k Hk Hne).
    rewrite listAvailableModels_cases, Hf, Hok.
    unfold add_events; cbn. now rewrite <- app_assoc.
Qed.

Lemma X13_selectModel_catalog_failure_witness :
  fst (selectModel forbidden_env persisted_only_world)
  = Ok (SelectionFailed (ErrorObj "Failed to fetch models: Forbidden"))
  /\ fst (selectModel offline_env persisted_only_world)
     = Ok (SelectionFailed (ErrorObj "fetch failed")).
Proof.
  split.
  - rewrite (proj2 (X13_selectModel_catalog_failure forbidden_env
                      persisted_only_world "k" eq_refl
                      ltac:(discriminate))
               {| status := 403; statusText := "Forbidden";
                  json := Ok sample_catalog |} eq_refl eq_refl).
    reflexivity.
  - rewrite (proj1 (X13_selectModel_catalog_failure offline_env
                      persisted_only_world "k" eq_refl
                      ltac:(discriminate))
               (ErrorObj "fetch failed") eq_refl).
    reflexivity.
Defined.

(** ** Storing the credential *)

Lemma rewriteFlow_with_credential env text argsPrompt w k :
  secretApiKey w = Some k -> k <> ""%string ->
  fst (rewriteFlow env text argsPrompt w) <> Ok MissingCredential.
Proof.
  intros Hk Hne.
  destruct (String.eqb (modelName (getRewriterConfig k w))
              DEPRECATED_MODEL_NAME) eqn:Hm.
  - apply String.eqb_eq in Hm.
    now rewrite (rewriteFlow_deprecated env text argsPrompt w k Hk Hne Hm).
  - apply String.eqb_neq in Hm.
    rewrite (rewriteFlow_generates env text argsPrompt w k Hk Hne Hm).
    destruct (generate env _ _); discriminate.
Qed.

(** X14: a dismissed or empty input box leaves everything as it was and
    shows nothing; a non-empty input is stored as the credential and
    confirmed with one message, and from then on a rewrite of selected text
    does not stop for a missing credential. *)
Theorem X14_setApiKey_effect (env : Env) (w : World) :
  (input_box env = None \/ input_box env = Some ""%string ->
   setApiKey env w = (Ok InputDismissed, w))
  /\ (forall k,
        input_box env = Some k -> k <> ""%string ->
        setApiKey env w
        = (Ok ApiKeySaved,
           {| sessionModelName := sessionModelName w;
              settings := settings w;
              secretApiKey := Some k;
              trace := trace w
                         ++ [ShowInformationMessage "API Key saved successfully."] |})
        /\ forall env' editor argsPrompt,
             selectedText editor <> ""%string ->
             fst (rewrite env' (Some editor) argsPrompt (snd (setApiKey env w)))
             <> Ok MissingCredential).
Proof.
  split.
  - intros [H | H]; unfold setApiKey; rewrite H; reflexivity.
  - intros k Hk Hne.
    assert (E : setApiKey env w
                = (Ok ApiKeySaved,
                   {| sessionModelName := sessionModelName w;
                      settings := settings w;
                      secretApiKey := Some k;
                      trace := trace w
                                 ++ [ShowInformationMessage
                                       "API Key saved successfully."] |})).
    { unfold setApiKey. rewrite Hk.
      destruct k; [congruence | reflexivity]. }
    split; [exact E |].
    intros env' editor argsPrompt Htext. rewrite E; cbn [snd].
    rewrite rewrite_enters_flow by assumption.
    now apply rewriteFlow_with_credential with (k := k).
Qed.

Lemma X14_setApiKey_effect_witness :
  fst (rewrite read_only_settings_env (Some hello_editor) None
         (snd (setApiKey (with_input_box (Some "k") read_only_settings_env)
                 no_secret_world)))
  <> Ok MissingCredential.
Proof.
  apply (proj2 (X14_setApiKey_effect
                  (with_input_box (Some "k") read_only_settings_env)
                  no_secret_world) "k"%string eq_refl).
  - discriminate.
  - discriminate.
Defined.

(** ** The size and the bare form of the request *)

Lemma flat_map_example_parts_length (l : list (string * string)) :
  List.length (flat_map Spec.example_parts l) = 2 * List.length l.
Proof.
  induction l as [|p l IH]; cbn; [reflexivity | rewrite IH; lia].
Qed.

(** X15: the request holds two parts for every example, two parts for the
    selected text, and one more when there is an active instruction; so it
    is never empty. *)
Theorem X15_parts_count (config : RewriterConfig) (context : RewriteContext) :
  List.length (build_parts config context)
  = (if Js.truthy_str (promptText config context) then 1 else 0)
    + 2 * List.length (examples config) + 2.
Proof.
  rewrite build_parts_payload. unfold Spec.payload.
  rewrite !length_app, flat_map_example_parts_length.
  rewrite (Permutation_length (entries_perm (examples config))).
  destruct (promptText config context); cbn; lia.
Qed.

(** X16: with no prompt configured (or an empty one), no prompt passed to
    the command (or an empty one) and no examples configured, the request
    for a selected text is just the [input:] part with that text and the
    empty [output:] part. *)
Theorem X16_bare_request (k txt : string) (argsPrompt : option string)
  (w : World) :
  cfg_prompt (settings w) = None \/ cfg_prompt (settings w) = Some ""%string ->
  argsPrompt = None \/ argsPrompt = Some ""%string ->
  cfg_examples (settings w) = None \/ cfg_examples (settings w) = Some [] ->
  build_parts (getRewriterConfig k w) (context_of txt argsPrompt)
  = [("input: " ++ txt)%string; "output: "%string].
Proof.
  intros Hp Ha He. rewrite build_parts_payload.
  unfold promptText, context_of, getRewriterConfig;
    cbn [selectionPrompt prompt examples text].
  rewrite (or_str_falsy _ _ Ha), (or_str_falsy _ _ Hp).
  now destruct He as [-> | ->].
Qed.

Lemma X16_bare_request_witness :
  build_parts (getRewriterConfig "k" no_secret_world) (context_of "hello" None)
  = ["input: hello"%string; "output: "%string].
Proof.
  apply (X16_bare_request "k" "hello" None no_secret_world).
  - left. reflexivity.
  - left. reflexivity.
  - left. reflexivity.
Defined.

(** ** Names with the [models/] prefix *)

Lemma starts_with_split (p s : string) :
  Js.starts_with p s = true -> (p ++ Js.drop (String.length p) s)%string = s.
Proof.
  revert s. induction p as [|a p IH]; intros s H; [reflexivity |].
  destruct s as [|b s]; [discriminate |].
  cbn in H. apply andb_true_iff in H as [Hab Hps].
  apply Ascii.eqb_eq in Hab. subst b. cbn. now rewrite IH.
Qed.

(** X17: for a catalog name that starts with ["models/"] the returned name
    is the rest of it: putting the prefix back gives the catalog name, and a
    name built as ["models/"] followed by [x] is returned as [x], also when
    [x] holds ["models/"] again. *)
Theorem X17_prefix_round_trip (m : ModelInfo) :
  (Js.starts_with "models/" (name m) = true ->
   ("models/" ++ display_name m)%string = name m)
  /\ (forall x,
        name m = ("models/" ++ x)%string -> display_name m = x).
Proof.
  unfold display_name. split.
  - intros H. rewrite replace_unfold, H. cbn [String.append].
    now apply (starts_with_split "models/").
  - intros x ->. reflexivity.
Qed.

Lemma X17_prefix_round_trip_witness :
  ("models/" ++ display_name nested_prefixed_model)%string
  = name nested_prefixed_model
  /\ display_name nested_prefixed_model = "tuned/models/foo"%string.
Proof.
  split.
  - apply (proj1 (X17_prefix_round_trip nested_prefixed_model)). reflexivity.
  - apply (proj2 (X17_prefix_round_trip nested_prefixed_model)). reflexivity.
Defined.

(** ** A picked model *)

Lemma updateModelConfig_world env x w :
  snd (updateModelConfig env x w)
  = {| sessionModelName := Some x;
       settings := if match inspect_model env, update_model env with
                      | InspectFound, UpdateDone => true
                      | _, _ => false
                      end
                   then with_model (Some x) (settings w)
                   else settings w;
       secretApiKey := secretApiKey w;
       trace := trace w ++ persistence_events env x |}.
Proof.
  rewrite updateModelConfig_cases. unfold persistence_events, selected.
  destruct (inspect_model env); [| | destruct (update_model env)]; reflexivity.
Qed.

Lemma listAvailableModels_ok_world env k w names :
  fst (listAvailableModels env k w) = Ok names ->
  snd (listAvailableModels env k w) = add_events w [Fetch (models_url k)].
Proof.
  rewrite listAvailableModels_cases.
  destruct (fetch_models env) as [e | r]; [discriminate |].
  destruct (ok r); [| discriminate].
  destruct (json r); [reflexivity | discriminate].
Qed.

(** X18: with a credential stored and a non-empty list of usable models,
    the command offers exactly that list; a non-empty pick [m] ends it in
    [ModelSelected m] and is confirmed with ["Rewriter model set to: "] and
    [m] as the last thing done, whatever the settings store answered, so
    also when the write was refused and only logged; a dismissed pick list
    ends it in [SelectionDismissed] with nothing after the list. *)
Theorem X18_selectModel_pick (env : Env) (w : World) (k : string)
  (names : list string) :
  secretApiKey w = Some k -> k <> ""%string ->
  fst (listAvailableModels env k w) = Ok names -> names <> [] ->
  (forall m,
     quick_pick env names = Some m -> m <> ""%string ->
     fst (selectModel env w) = Ok (ModelSelected m)
     /\ trace (snd (selectModel env w))
        = trace w
            ++ [Fetch (models_url k); ShowQuickPick names]
            ++ persistence_events env m
            ++ [ShowInformationMessage ("Rewriter model set to: " ++ m)])
  /\ (quick_pick env names = None \/ quick_pick env names = Some ""%string ->
      selectModel env w
      = (Ok SelectionDismissed,
         add_events w [Fetch (models_url k); ShowQuickPick names])).
Proof.
  intros Hk Hne Hlist Hnames.
  pose proof (listAvailableModels_ok_world env k w names Hlist) as Hw.
  rewrite (selectModel_with_credential env w k Hk Hne).
  destruct (listAvailableModels env k w) as [r w1].
  cbn [fst snd] in Hlist, Hw. subst r w1.
  destruct names as [|n names]; [congruence |].
  split.
  - intros m Hq Hm. rewrite Hq. destruct m as [|c m]; [congruence |].
    split; [reflexivity |]. cbn [snd].
    rewrite updateModelConfig_world. cbn. now rewrite <- !app_assoc.
  - intros [-> | ->]; unfold add_events; cbn; now rewrite <- app_assoc.
Qed.

Lemma X18_selectModel_pick_witness :
  fst (selectModel picking_env persisted_only_world) = Ok (ModelSelected "foo")
  /\ trace (snd (selectModel picking_env persisted_only_world))
     = [Fetch (models_url "k"); ShowQuickPick ["foo"%string];
        ConfigUpdate "rewriter.model" "foo";
        persistence_warning (ErrorObj "Unable to write into user settings");
        ShowInformationMessage "Rewriter model set to: foo"].
Proof.
  apply (proj1 (X18_selectModel_pick picking_env persisted_only_world "k"
                  ["foo"%string] eq_refl ltac:(discriminate) eq_refl
                  ltac:(discriminate))
           "foo"%string eq_refl).
  discriminate.
Defined.

(** ** What runs of the extension preserve *)

Lemma rewrite_world env editor argsPrompt w :
  exists out evs, rewrite env editor argsPrompt w = (Ok out, add_events w evs).
Proof.
  destruct editor as [editor|]; [| now do 2 eexists].
  unfold rewrite. destruct (Js.truthy_str (selectedText editor)); cbn;
    [| now do 2 eexists].
  destruct (rewriteFlow_cases env (selectedText editor) argsPrompt w)
    as [(ev & -> & _)
       | [(k & _ & _ & _ & ->)
         | [(k & result & _ & _ & _ & ->) | (k & error & _ & _ & _ & ->)]]];
    now do 2 eexists.
Qed.

Lemma selectModel_world env w :
  exists out x s evs,
    selectModel env w
    = (Ok out,
       {| sessionModelName := x; settings := s;
          secretApiKey := secretApiKey w; trace := trace w ++ evs |})
    /\ cfg_prompt s = cfg_prompt (settings w)
    /\ cfg_examples s = cfg_examples (settings w).
Proof.
  destruct (Js.truthy (secretApiKey w)) eqn:Hk.
  2:{ rewrite selectModel_no_credential by assumption.
      do 4 eexists. split; [reflexivity | now split]. }
  apply truthy_some_nonempty in Hk as (k & Hk & Hne).
  rewrite (selectModel_with_credential env w k Hk Hne).
  destruct (listAvailableModels_world env k w) as (evs & Hw).
  destruct (listAvailableModels env k w) as [[models | e] w1];
    cbn [snd] in Hw; subst w1; unfold add_events; cbn [trace settings
      sessionModelName secretApiKey].
  2:{ rewrite <- app_assoc. do 4 eexists. split; [reflexivity | now split]. }
  destruct models as [|n models].
  { rewrite <- app_assoc. do 4 eexists. split; [reflexivity | now split]. }
  destruct (quick_pick env (n :: models)) as [[|c m]|];
    try (rewrite <- app_assoc; do 4 eexists; split; [reflexivity | now split]).
  rewrite updateModelConfig_world.
  cbn [trace settings sessionModelName secretApiKey].
  rewrite <- !app_assoc. do 4 eexists. split; [reflexivity |].
  destruct (inspect_model env); [| | destruct (update_model env)]; now split.
Qed.

Lemma step_effect (op : Op) (w : World) :
  (exists evs, trace (step op w) = trace w ++ evs)
  /\ cfg_prompt (settings (step op w)) = cfg_prompt (settings w)
  /\ cfg_examples (settings (step op w)) = cfg_examples (settings w)
  /\ (selects_model op = false ->
      sessionModelName (step op w) = sessionModelName w
      /\ settings (step op w) = settings w)
  /\ (stores_api_key op = false -> secretApiKey (step op w) = secretApiKey w).
Proof.
  destruct op as [k | env config context | env k | env x | env | env
                 | env editor argsPrompt]; cbn [step selects_model stores_api_key].
  - cbn. repeat split. exists []. now rewrite app_nil_r.
  - unfold generateRewrite. step_js. repeat split. now eexists.
  - destruct (listAvailableModels_world env k w) as (evs & ->).
    repeat split. now exists evs.
  - rewrite updateModelConfig_world. cbn.
    split; [now eexists |].
    destruct (inspect_model env); [| | destruct (update_model env)];
      repeat split; discriminate.
  - unfold setApiKey. destruct (Js.truthy (input_box env)); cbn.
    + repeat split; try discriminate. now eexists.
    + repeat split. exists []. now rewrite app_nil_r.
  - destruct (selectModel_world env w) as (out & x & s & evs & -> & Hp & He).
    cbn. repeat split; try discriminate; trivial. now exists evs.
  - destruct (rewrite_world env editor argsPrompt w) as (out & evs & ->).
    cbn. repeat split. now exists evs.
Qed.

(** X19: along any run of calls and commands the trace only grows and the
    prompt and examples settings stay as they are; the session model and
    all settings stay as they are as long as no model is selected, and the
    stored credential stays as it is as long as the set-key command is not
    run. *)
Theorem X19_run_invariants (ops : list Op) (w : World) :
  (exists evs, trace (run ops w) = trace w ++ evs)
  /\ cfg_prompt (settings (run ops w)) = cfg_prompt (settings w)
  /\ cfg_examples (settings (run ops w)) = cfg_examples (settings w)
  /\ (Forall (fun op => selects_model op = false) ops ->
      sessionModelName (run ops w) = sessionModelName w
      /\ settings (run ops w) = settings w)
  /\ (Forall (fun op => stores_api_key op = false) ops ->
      secretApiKey (run ops w) = secretApiKey w).
Proof.
  unfold run. revert w. induction ops as [|op ops IH]; intros w; cbn.
  - repeat split. exists []. now rewrite app_nil_r.
  - destruct (IH (step op w)) as ((evs2 & Ht2) & Hp2 & He2 & Hs2 & Hk2).
    destruct (step_effect op w) as ((evs1 & Ht1) & Hp1 & He1 & Hs1 & Hk1).
    split; [| split; [| split; [| split]]].
    + exists (evs1 ++ evs2). now rewrite Ht2, Ht1, app_assoc.
    + congruence.
    + congruence.
    + intros H. inversion H as [|? ? Hop Hops]; subst.
      destruct (Hs2 Hops) as [-> ->]. now apply Hs1.
    + intros H. inversion H as [|? ? Hop Hops]; subst.
      rewrite (Hk2 Hops). now apply Hk1.
Qed.

Lemma X19_run_invariants_witness :
  (sessionModelName
     (run [CmdSetApiKey (with_input_box (Some "k2") read_only_settings_env);
           CmdRewrite quota_env (Some hello_editor) None]
        persisted_only_world)
   = sessionModelName persisted_only_world
   /\ settings
        (run [CmdSetApiKey (with_input_box (Some "k2") read_only_settings_env);
              CmdRewrite quota_env (Some hello_editor) None]
           persisted_only_world)
      = settings persisted_only_world)
  /\ secretApiKey
       (run [CmdSelectModel picking_env;
             CmdRewrite quota_env (Some hello_editor) None]
          persisted_only_world)
     = secretApiKey persisted_only_world.
Proof.
  split.
  - apply (proj1 (proj2 (proj2 (proj2
             (X19_run_invariants
                [CmdSetApiKey (with_input_box (Some "k2") read_only_settings_env);
                 CmdRewrite quota_env (Some hello_editor) None]
                persisted_only_world))))).
    repeat constructor.
  - apply (proj2 (proj2 (proj2 (proj2
             (X19_run_invariants
                [CmdSelectModel picking_env;
                 CmdRewrite quota_env (Some hello_editor) None]
                persisted_only_world))))).
    repeat constructor.
Defined.

(** ** The deprecated model and the examples, once more *)

Lemma strict_eq_iff (a : option string) (lit : string) :
  Js.strict_eq a lit = true <-> a = Some lit.
Proof.
  destruct a as [s|]; cbn; [| split; discriminate].
  rewrite String.eqb_eq. split; congruence.
Qed.

(** X20: when the command stops on the deprecated model it shows the warning
    with the single action ["Select Model"]; the model selection command is
    started exactly when the user takes that action, and in both cases the
    command is over. *)
Theorem X20_deprecated_offer (env : Env) (editor : Editor)
  (argsPrompt : option string) (w : World) (k : string) :
  secretApiKey w = Some k -> k <> ""%string ->
  selectedText editor <> ""%string ->
  modelName (getRewriterConfig k w) = DEPRECATED_MODEL_NAME ->
  (warning_choice env = Some "Select Model"%string ->
   rewrite env (Some editor) argsPrompt w
   = (Ok DeprecatedModelSelected,
      add_events w
        [deprecated_warning; ExecuteCommand "rewriter.selectModel"]))
  /\ (warning_choice env <> Some "Select Model"%string ->
      rewrite env (Some editor) argsPrompt w
      = (Ok DeprecatedModelSelected, add_events w [deprecated_warning])).
Proof.
  intros Hk Hne Htext Hm.
  rewrite rewrite_enters_flow by assumption.
  rewrite (rewriteFlow_deprecated env _ argsPrompt w k Hk Hne Hm).
  split; intros H.
  - apply strict_eq_iff in H. now rewrite H.
  - destruct (Js.strict_eq (warning_choice env) "Select Model") eqn:E;
      [| reflexivity].
    apply strict_eq_iff in E. congruence.
Qed.

Lemma X20_deprecated_offer_witness :
  rewrite read_only_settings_env (Some hello_editor) None deprecated_world
  = (Ok DeprecatedModelSelected,
     add_events deprecated_world
       [deprecated_warning; ExecuteCommand "rewriter.selectModel"]).
Proof.
  apply (proj1 (X20_deprecated_offer read_only_settings_env hello_editor None
                  deprecated_world "k" eq_refl ltac:(discriminate)
                  ltac:(discriminate) eq_refl)).
  reflexivity.
Defined.

(** X21: every configured example reaches the request as an [input:] part
    with its key immediately followed by the [output:] part with its value,
    and parts follow it (at least those of the selected text), whatever the
    order of the examples and whatever the instruction. *)
Theorem X21_example_pairs_adjacent (config : RewriterConfig)
  (context : RewriteContext) (input output : string) :
  In (input, output) (examples config) ->
  exists before after,
    build_parts config context
    = before
        ++ [("input: " ++ input)%string; ("output: " ++ output)%string]
        ++ after
    /\ after <> [].
Proof.
  intros Hin.
  apply (Permutation_in _ (Permutation_sym (entries_perm (examples config))))
    in Hin.
  apply in_split in Hin as (l1 & l2 & Hsplit).
  rewrite build_parts_payload. unfold Spec.payload. rewrite Hsplit.
  rewrite flat_map_app. cbn [flat_map].
  exists (Spec.instruction_part (promptText config context)
            ++ flat_map Spec.example_parts l1).
  exists (flat_map Spec.example_parts l2
            ++ [("input: " ++ text context)%string; "output: "%string]).
  split.
  - unfold Spec.example_parts at 2. cbn [fst snd].
    now rewrite <- !app_assoc.
  - intros H. apply app_eq_nil in H as [_ H]. discriminate.
Qed.

Lemma X21_example_pairs_adjacent_witness :
  exists before after,
    build_parts numeric_key_config plain_context
    = before ++ ["input: b"; "output: B"]%string ++ after
    /\ after <> [].
Proof.
  apply (X21_example_pairs_adjacent numeric_key_config plain_context
           "b"%string "B"%string).
  left. reflexivity.
Defined.
